(** * The movement ledger of app.py: store, aggregations and forecast

    A shallow embedding of the Flask application [app.py]: its four tables,
    the REST handlers that read and append movements and products, the
    daily series behind the sales chart, the per-category totals behind the
    pie chart, the monthly fiscal report and the linear forecast.

    Conventions of the embedding.
    - A [datetime.date] is represented by its proleptic Gregorian ordinal
      ([date.toordinal()], a [Z]); [datetime(y, m, d).date()] is
      [new_date], which performs CPython's checks (the arguments must fit
      a C [int], then lie in the calendar) and computes the ordinal with
      the arithmetic of the [datetime] module.
    - A Python [float] and a [db.Float] column are IEEE binary64 numbers,
      Rocq's primitive [float]; a Python [int] is a [Z]; a Python [str]
      is the [string] of its UTF-8 bytes.
    - [SUM] in SQLite and [sum] in Python add the values in row order,
      rounding after each addition (the plain loop; releases that carry a
      compensation term differ from it in the last bits only).
    - An uncaught Python exception (Flask answers it with status 500) is
      the [Raise] branch of [result].
    - The store is the SQLite file the application configures: an integer
      is bound into a statement only when it fits 64 bits
      ([OverflowError] otherwise), a NaN is stored and returned as NULL,
      foreign keys are not enforced, a new row gets the largest id so far
      plus one, and the groups of a [GROUP BY] come sorted by their key,
      NULL first and texts in byte order.
    - pandas holds a date as a nanosecond timestamp, which spans
      1677-09-22 to 2262-04-11; outside of it [pd.to_datetime],
      [pd.date_range] and the addition of a [pd.Timedelta] raise
      ([OutOfBoundsDatetime]).
    - The text parsers of Python ([datetime.fromisoformat], [float] on a
      string) and the estimator of scikit-learn are parameters of the
      handlers that call them; the estimator may refuse its input.
    - The chart and spreadsheet routes are modelled up to the data they
      hand to matplotlib and to openpyxl.
    - The English names of the specification stand for the literals of the
      code: kind [sale] is ['venta'], kind [expense] is ['gasto'], the
      label for movements without category is ['sin-categoria']. *)

From Stdlib Require Import ZArith Lia Ascii Sorted.
From Corelib Require Import PrimFloat SpecFloat FloatOps.
From stdpp Require Import base list strings gmap.

Open Scope Z_scope.
Set Default Proof Using "Type".

(** ** Exceptions and results *)

(** [OutOfBoundsDatetime] is pandas' refusal of a date outside its
    timestamp range. *)
Inductive exn : Type :=
  | KeyError (key : string)
  | ValueError
  | TypeError
  | OverflowError
  | IntegrityError
  | AttributeError
  | NameError (name : string)
  | OutOfBoundsDatetime.

Inductive result (A : Type) : Type :=
  | Ok (a : A)
  | Raise (e : exn).
Arguments Ok {A} a.
Arguments Raise {A} e.

Definition bind {A B} (r : result A) (k : A -> result B) : result B :=
  match r with
  | Ok a => k a
  | Raise e => Raise e
  end.

Declare Scope result_scope.
Delimit Scope result_scope with result.
Notation "'let*' x := r 'in' k" := (bind r (fun x => k))
  (at level 10, x name, r at level 100, k at level 200) : result_scope.
Open Scope result_scope.

(** [d[key]] on a value that may be missing. *)
Definition subscript {A} (key : string) (v : option A) : result A :=
  match v with
  | Some a => Ok a
  | None => Raise (KeyError key)
  end.

Fixpoint traverse {A B} (f : A -> result B) (l : list A) : result (list B) :=
  match l with
  | [] => Ok []
  | a :: l' =>
      let* b := f a in
      let* bs := traverse f l' in
      Ok (b :: bs)
  end.

(** ** The calendar of [datetime] *)

Module Calendar.

Definition MINYEAR : Z := 1.
Definition MAXYEAR : Z := 9999.

Definition is_leap (year : Z) : bool :=
  (year mod 4 =? 0) && (negb (year mod 100 =? 0) || (year mod 400 =? 0)).

Definition days_before_year (year : Z) : Z :=
  let y := year - 1 in
  y * 365 + y / 4 - y / 100 + y / 400.

(** [_DAYS_IN_MONTH] *)
Definition DAYS_IN_MONTH (month : Z) : Z :=
  match month with
  | 1 => 31 | 2 => 28 | 3 => 31 | 4 => 30 | 5 => 31 | 6 => 30
  | 7 => 31 | 8 => 31 | 9 => 30 | 10 => 31 | 11 => 30 | 12 => 31
  | _ => 0
  end.

(** [_DAYS_BEFORE_MONTH] *)
Definition DAYS_BEFORE_MONTH (month : Z) : Z :=
  match month with
  | 1 => 0 | 2 => 31 | 3 => 59 | 4 => 90 | 5 => 120 | 6 => 151
  | 7 => 181 | 8 => 212 | 9 => 243 | 10 => 273 | 11 => 304 | 12 => 334
  | _ => 0
  end.

Definition days_in_month (year month : Z) : Z :=
  if (month =? 2) && is_leap year then 29 else DAYS_IN_MONTH month.

Definition days_before_month (year month : Z) : Z :=
  DAYS_BEFORE_MONTH month + (if (2 <? month) && is_leap year then 1 else 0).

Definition ymd2ord (year month day : Z) : Z :=
  days_before_year year + days_before_month year month + day.

(** [_check_date_fields] *)
Definition check_date_fields (year month day : Z) : bool :=
  (MINYEAR <=? year) && (year <=? MAXYEAR)
  && (1 <=? month) && (month <=? 12)
  && (1 <=? day) && (day <=? days_in_month year month).

(** An argument that CPython converts to a C [int]. *)
Definition c_int (z : Z) : bool := (- 2 ^ 31 <=? z) && (z <? 2 ^ 31).

(** [datetime(year, month, day).date()]: [OverflowError] for an argument
    that does not fit a C [int], [ValueError] outside the calendar, the
    date's ordinal otherwise. *)
Definition new_date (year month day : Z) : result Z :=
  if c_int year && c_int month && c_int day
  then if check_date_fields year month day
       then Ok (ymd2ord year month day)
       else Raise ValueError
  else Raise OverflowError.

(** The ordinal of [date.min]. *)
Definition min_ordinal : Z := 1.

(** [d - timedelta(days=n)] and [d + timedelta(days=n)] on ordinals. *)
Definition minus_days (d n : Z) : Z := d - n.
Definition plus_days (d n : Z) : Z := d + n.

(** [pd.date_range(start, end)]: the days from [start] to [end], both
    included, one per day (none when [end] is before [start]). *)
Definition date_range (start end_ : Z) : list Z :=
  seqZ start (end_ - start + 1).

End Calendar.

(** ** The timestamps of pandas *)

Module Timestamp.

(** The first and the last day that a nanosecond timestamp holds at
    midnight: [Timestamp.min] is 1677-09-21 00:12:43.145224193 and
    [Timestamp.max] is 2262-04-11 23:47:16.854775807. *)
Definition min_day : Z := Eval cbv in Calendar.ymd2ord 1677 9 22.
Definition max_day : Z := Eval cbv in Calendar.ymd2ord 2262 4 11.

Definition in_bounds (day : Z) : bool := (min_day <=? day) && (day <=? max_day).

(** [pd.to_datetime(date)] *)
Definition to_datetime (day : Z) : result Z :=
  if in_bounds day then Ok day else Raise OutOfBoundsDatetime.

(** [timestamp + pd.Timedelta(days=n)] *)
Definition plus_days (ts n : Z) : result Z :=
  if in_bounds (ts + n) then Ok (ts + n) else Raise OutOfBoundsDatetime.

End Timestamp.

(** ** The tables *)

Module User.
Record t : Type := mk
  { id : Z; google_id : string; email : string; name : option string }.
End User.

Module Business.
Record t : Type := mk { id : Z; name : string; owner_id : Z }.
End Business.

Module Product.
Record t : Type := mk
  { id : Z; business_id : Z; name : string;
    cost : option float; price : option float; stock : option Z }.
End Product.

Module Movement.
(** [time] is the time of day, in microseconds since midnight;
    [category] and [note] are the two nullable columns. *)
Record t : Type := mk
  { id : Z; business_id : Z; date : Z; time : Z; tipo : string;
    amount : float; category : option string; note : option string }.
End Movement.

Record db : Type := mk_db
  { users : list User.t;
    businesses : list Business.t;
    products : list Product.t;
    movements : list Movement.t }.

(** ** SQLite and Python arithmetic *)

(** An integer that SQLite stores and that [sqlite3] binds into a
    statement: one of 64 bits. *)
Definition sqlite_integer (z : Z) : bool := (- 2 ^ 63 <=? z) && (z <? 2 ^ 63).

(** Binding an integer parameter of a statement. *)
Definition bind_integer (z : Z) : result Z :=
  if sqlite_integer z then Ok z else Raise OverflowError.

(** Binding [request.args.get('bid', type=int)], which is [None] when
    the argument is absent or not an integer: [None] is bound as NULL. *)
Definition bind_arg (bid : option Z) : result (option Z) :=
  match bid with
  | Some z => let* _ := bind_integer z in Ok bid
  | None => Ok None
  end.

(** A REAL handed to or produced by SQLite: a NaN becomes NULL. *)
Definition sql_real (x : float) : option float :=
  if PrimFloat.is_nan x then None else Some x.

(** [SUM(column)]: NULL over no row, else the values added up in row
    order starting from 0.0. *)
Definition sql_sum (xs : list float) : option float :=
  match xs with
  | [] => None
  | _ => sql_real (fold_left PrimFloat.add xs 0%float)
  end.

(** Python's [sum(...)] over floats: the values added up in order
    starting from 0 (the integer 0 and 0.0 add alike). *)
Definition py_sum (xs : list float) : float :=
  fold_left PrimFloat.add xs 0%float.

(** [float(v or 0)] for the scalar of a [SUM] query: [None] and a zero
    are falsy and give 0.0. *)
Definition float_or_0 (v : option float) : float :=
  match v with
  | None => 0%float
  | Some x => if PrimFloat.is_zero x then 0%float else x
  end.

(** [float(n)] for an integer: the nearest binary64 number, ties to
    even; [None] is the [OverflowError] of an integer beyond the
    range. *)
Definition float_of_int (z : Z) : option float :=
  match binary_normalize prec emax z 0 false with
  | S754_infinity _ => None
  | sf => Some (SF2Prim sf)
  end.

(** The next value of an autoincremented INTEGER PRIMARY KEY. *)
Definition next_id (ids : list Z) : Z := 1 + foldr Z.max 0 ids.

(** The order of the groups of a [GROUP BY]: insertion sort of the
    distinct keys under the order [leb] of the key column. *)
Fixpoint insert_key {K : Type} (leb : K -> K -> bool) (k : K) (l : list K)
  : list K :=
  match l with
  | [] => [k]
  | x :: l' => if leb k x then k :: l else x :: insert_key leb k l'
  end.

Definition sort_keys {K : Type} (leb : K -> K -> bool) (l : list K) : list K :=
  foldr (insert_key leb) [] l.

(** NULL sorts before every text, and texts sort byte by byte. *)
Definition text_leb (a b : option string) : bool :=
  match a, b with
  | None, _ => true
  | Some _, None => false
  | Some s, Some t => String.leb s t
  end.

(** ** Queries on the movement table *)

(** [Movement.query.filter_by(business_id=bid).all()] *)
Definition movements_of (d : db) (bid : Z) : list Movement.t :=
  filter (fun m => Movement.business_id m = bid) (movements d).

(** The rows of a business whose id comes from the query string:
    [business_id == None] selects no row. *)
Definition movements_of_arg (d : db) (bid : option Z) : list Movement.t :=
  filter (fun m => Some (Movement.business_id m) = bid) (movements d).

(** [SELECT key, SUM(amount) ... GROUP BY key]: one row per distinct key,
    in the order of the keys, with the sum over the rows that carry
    it. *)
Definition group_by_sum {K : Type} `{EqDecision K} (leb : K -> K -> bool)
  (key : Movement.t -> K) (rows : list Movement.t)
  : list (K * option float) :=
  (fun k => (k, sql_sum (Movement.amount <$>
                         filter (fun m => key m = k) rows)))
    <$> sort_keys leb (remove_dups (key <$> rows)).

(** ** The sales chart: [plot_sales] *)

(** The amounts selected by the query of the loop body:
    [WHERE business_id == bid AND date == day], whatever the kind. *)
Definition day_amounts (d : db) (bid : option Z) (day : Z) : list float :=
  Movement.amount <$>
  filter (fun m => Movement.date m = day) (movements_of_arg d bid).

(** The query of the loop body: [SUM(amount)] over them. *)
Definition day_sum (d : db) (bid : option Z) (day : Z) : option float :=
  sql_sum (day_amounts d bid day).

(** The loop over [dates]. *)
Definition daily_totals (d : db) (bid : option Z) (dates : list Z)
  : list (Z * float) :=
  (fun day => (day, float_or_0 (day_sum d bid day))) <$> dates.

(** The series [dates], [totals] that [plot_sales] computes for a [bid]
    that the store binds; [today] is [datetime.now().date()]. *)
Definition plot_sales (d : db) (bid : option Z) (today : Z)
  : list (Z * float) :=
  let end_ := today in
  let start := Calendar.minus_days end_ 29 in
  daily_totals d bid (Calendar.date_range start end_).

(** The route [/plot/sales] up to [ax.plot(dates, totals)]: the date
    arithmetic of Python and the date range of pandas come first, the
    first query of the loop binds [bid]. *)
Definition plot_sales_route (d : db) (bid : option Z) (today : Z)
  : result (list (Z * float)) :=
  let end_ := today in
  let start := Calendar.minus_days end_ 29 in
  if start <? Calendar.min_ordinal then Raise OverflowError
  else
    let* _ := Timestamp.to_datetime start in
    let* _ := Timestamp.to_datetime end_ in
    let* _ := bind_arg bid in
    Ok (plot_sales d bid today).

(** ** The category chart: [plot_category] *)

Definition sin_categoria : string := "sin-categoria".

(** [r[0] or 'sin-categoria']: [None] and the empty string are falsy. *)
Definition category_label (c : option string) : string :=
  match c with
  | None => sin_categoria
  | Some s => if decide (s = "") then sin_categoria else s
  end.

(** [float(r[1])]: [float(None)] is a [TypeError]. *)
Definition float_of_scalar (v : option float) : result float :=
  match v with
  | Some x => Ok x
  | None => Raise TypeError
  end.

(** The route [/plot/category] up to [ax.pie(vals, labels=cats)]: the
    lists [cats] and [vals], zipped. *)
Definition plot_category (d : db) (bid : option Z)
  : result (list (string * float)) :=
  let* bid := bind_arg bid in
  let rows := group_by_sum text_leb Movement.category (movements_of_arg d bid) in
  traverse (fun r => let* v := float_of_scalar (snd r) in
                     Ok (category_label (fst r), v)) rows.

(** The stored category values of a business ([None]: no category),
    each once, in the order of the groups. *)
Definition categories (d : db) (bid : Z) : list (option string) :=
  sort_keys text_leb (remove_dups (Movement.category <$> movements_of d bid)).

(** The sum of the amounts that a business stores under a category
    value, whatever their kind. *)
Definition category_total (d : db) (bid : Z) (c : option string) : float :=
  py_sum (Movement.amount <$>
          filter (fun m => Movement.category m = c) (movements_of d bid)).

(** ** The fiscal report: [fiscal_report] *)

Definition venta : string := "venta".
Definition gasto : string := "gasto".

Record fiscal : Type := mk_fiscal
  { year : Z; month : Z; sales : float; expenses : float; profit : float }.

(** The [end] of the month, as the code computes it. *)
Definition month_end (year month : Z) : result Z :=
  if month =? 12
  then let* d := Calendar.new_date (year + 1) 1 1 in
       Ok (Calendar.minus_days d 1)
  else let* d := Calendar.new_date year (month + 1) 1 in
       Ok (Calendar.minus_days d 1).

Definition fiscal_rows (d : db) (bid start end_ : Z) : list Movement.t :=
  filter (fun m => Movement.business_id m = bid
                   /\ start <= Movement.date m /\ Movement.date m <= end_)
         (movements d).

Definition fiscal_report (d : db) (bid year month : Z) : result fiscal :=
  let* start := Calendar.new_date year month 1 in
  let* end_ := month_end year month in
  let* bid := bind_integer bid in
  let rows := fiscal_rows d bid start end_ in
  let total_sales :=
    py_sum (Movement.amount <$>
            filter (fun r => Movement.tipo r = venta) rows) in
  let total_expenses :=
    py_sum (Movement.amount <$>
            filter (fun r => Movement.tipo r = gasto) rows) in
  Ok {| year := year; month := month;
        sales := total_sales; expenses := total_expenses;
        profit := PrimFloat.sub total_sales total_expenses |}.

(** The report over the movements of a business dated from the first
    to the last day of a month. *)
Definition report_of (d : db) (bid y m : Z) : fiscal :=
  let rows := fiscal_rows d bid (Calendar.ymd2ord y m 1)
                (Calendar.ymd2ord y m (Calendar.days_in_month y m)) in
  let total_sales :=
    py_sum (Movement.amount <$> filter (fun r => Movement.tipo r = venta) rows) in
  let total_expenses :=
    py_sum (Movement.amount <$> filter (fun r => Movement.tipo r = gasto) rows) in
  {| year := y; month := m; sales := total_sales; expenses := total_expenses;
     profit := PrimFloat.sub total_sales total_expenses |}.

(** ** HTTP answers that are not exceptions *)

Inductive reply (A : Type) : Type :=
  | Success (a : A)
  | Failure (status : Z) (error : string).
Arguments Success {A} a.
Arguments Failure {A} status error.

(** ** Request bodies and appends *)

(** A JSON value of a request body. [JInt] is a number written without
    fraction or exponent, which Python reads as an [int]; [JNum] is any
    other number, given by the binary64 value Python reads it as;
    [JCompound] is an array or an object, whose content no handler
    reads. *)
Inductive json : Type :=
  | JNull
  | JBool (b : bool)
  | JInt (z : Z)
  | JNum (x : float)
  | JStr (s : string)
  | JCompound.

(** The body of [POST /api/<bid>/movements], a JSON object. [date] and
    [time] are handed to [fromisoformat] and [amount] to [float], which
    judge any JSON value ([None] is a missing key). The kind goes to the
    store as it is: the bodies of the model carry a text or a null
    there, or lack the key. [category] and [note] are read with
    [data.get]: a text, or [None] for a null and for a missing key. *)
Module MovementBody.

Inductive field : Type :=
  | Absent
  | Null
  | Text (s : string).

Record t : Type := mk
  { date_value : option json; time_value : option json; tipo_value : field;
    amount : option json; category : option string;
    note : option string }.

Definition text (v : option json) : option string :=
  match v with
  | Some (JStr s) => Some s
  | _ => None
  end.

(** The date, the time and the kind of a body that carries them as
    texts. *)
Definition date (data : t) : option string := text (date_value data).
Definition time (data : t) : option string := text (time_value data).
Definition tipo (data : t) : option string :=
  match tipo_value data with
  | Text s => Some s
  | _ => None
  end.

End MovementBody.

(** The body of [POST /api/<bid>/products]: a name that is a text, and
    a stock that is a JSON integer, when the keys are there. *)
Module ProductBody.
Record t : Type := mk
  { name : option string; cost : option json; price : option json;
    stock : option Z }.
End ProductBody.

Definition add_movement (d : db) (m : Movement.t) : db :=
  {| users := users d; businesses := businesses d;
     products := products d; movements := movements d ++ [m] |}.

Definition add_product (d : db) (p : Product.t) : db :=
  {| users := users d; businesses := businesses d;
     products := products d ++ [p]; movements := movements d |}.

Definition add_user (d : db) (u : User.t) : db :=
  {| users := users d ++ [u]; businesses := businesses d;
     products := products d; movements := movements d |}.

Definition add_business (d : db) (b : Business.t) : db :=
  {| users := users d; businesses := businesses d ++ [b];
     products := products d; movements := movements d |}.

(** ** Instances of the library functions

    The handlers below are stated for any text parsers and any estimator.
    The instances here serve the concrete examples: on every text they
    accept they give what Python gives, and they accept fewer texts. *)

Module Instances.

Definition digit (c : ascii) : option Z :=
  let n := Z.of_nat (nat_of_ascii c) in
  if (48 <=? n) && (n <=? 57) then Some (n - 48) else None.

Fixpoint number (acc : Z) (cs : list ascii) : option Z :=
  match cs with
  | [] => Some acc
  | c :: cs' => d ← digit c; number (10 * acc + d) cs'
  end.

Definition iso_date (cs : list ascii) : option Z :=
  match cs with
  | [y1; y2; y3; y4; "-"%char; m1; m2; "-"%char; d1; d2] =>
      y ← number 0 [y1; y2; y3; y4];
      m ← number 0 [m1; m2];
      d ← number 0 [d1; d2];
      match Calendar.new_date y m d with
      | Ok o => Some o
      | Raise _ => None
      end
  | _ => None
  end.

Definition iso_time (cs : list ascii) : option Z :=
  match cs with
  | [h1; h2; ":"%char; m1; m2; ":"%char; s1; s2] =>
      h ← number 0 [h1; h2];
      m ← number 0 [m1; m2];
      s ← number 0 [s1; s2];
      if (h <? 24) && (m <? 60) && (s <? 60)
      then Some (((h * 60 + m) * 60 + s) * 1000000)
      else None
  | _ => None
  end.

(** [datetime.fromisoformat] on the layouts [YYYY-MM-DD] and
    [YYYY-MM-DDTHH:MM:SS]. *)
Definition fromisoformat (s : string) : option (Z * Z) :=
  let cs := String.list_ascii_of_string s in
  match iso_date (take 10 cs), drop 10 cs with
  | Some d, [] => Some (d, 0)
  | Some d, "T"%char :: rest => t ← iso_time rest; Some (d, t)
  | _, _ => None
  end.

(** The binary64 value of a positive integer, exact below 2^53. *)
Fixpoint float_of_pos (p : positive) : float :=
  match p with
  | xH => 1%float
  | xO q => PrimFloat.mul 2%float (float_of_pos q)
  | xI q => PrimFloat.add (PrimFloat.mul 2%float (float_of_pos q)) 1%float
  end.

Definition float_of_Z (z : Z) : float :=
  match z with
  | Z0 => 0%float
  | Zpos p => float_of_pos p
  | Zneg p => PrimFloat.opp (float_of_pos p)
  end.

(** [float] on a signed decimal integer of at most 15 digits and on the
    words [inf] and [nan]. *)
Definition float_of_unsigned (cs : list ascii) : option float :=
  if decide (cs = ["i"; "n"; "f"]%char) then Some PrimFloat.infinity
  else if decide (cs = ["n"; "a"; "n"]%char) then Some PrimFloat.nan
  else if decide (cs = []) then None
  else if bool_decide (length cs ≤ 15)%nat
       then float_of_Z <$> number 0 cs
       else None.

Definition float_of_str (s : string) : option float :=
  match String.list_ascii_of_string s with
  | "-"%char :: cs => PrimFloat.opp <$> float_of_unsigned cs
  | "+"%char :: cs => float_of_unsigned cs
  | cs => float_of_unsigned cs
  end.

(** The least-squares line through the training pairs in binary64
    arithmetic, by the textbook formulas: slope and intercept. Like
    scikit-learn, the instance refuses a total that is infinite or not
    a number with a [ValueError]. *)
Definition mean (xs : list float) : float :=
  PrimFloat.div (py_sum xs) (float_of_Z (Z.of_nat (length xs))).

Definition fit (pairs : list (Z * float)) : result (float * float) :=
  if forallb (fun p => PrimFloat.is_finite (snd p)) pairs
  then
    let xs := (fun p => float_of_Z (fst p)) <$> pairs in
    let ys := snd <$> pairs in
    let mx := mean xs in
    let my := mean ys in
    let sxy := py_sum ((fun p => PrimFloat.mul (PrimFloat.sub (float_of_Z (fst p)) mx)
                                               (PrimFloat.sub (snd p) my)) <$> pairs) in
    let sxx := py_sum ((fun x => PrimFloat.mul (PrimFloat.sub x mx)
                                               (PrimFloat.sub x mx)) <$> xs) in
    let slope := PrimFloat.div sxy sxx in
    Ok (slope, PrimFloat.sub my (PrimFloat.mul slope mx))
  else Raise ValueError.

Definition predict (line : float * float) (x : Z) : float :=
  PrimFloat.add (PrimFloat.mul (fst line) (float_of_Z x)) (snd line).

End Instances.

(** ** Concrete stores for the examples *)


(** 2024-01-01, as an ordinal. *)
Definition jan_1_2024 : Z := Eval cbv in Calendar.ymd2ord 2024 1 1.

(** A movement at midnight, without note. *)
Definition mov (id bid date : Z) (tipo : string) (amount : float)
  (category : option string) : Movement.t :=
  {| Movement.id := id; Movement.business_id := bid; Movement.date := date;
     Movement.time := 0; Movement.tipo := tipo; Movement.amount := amount;
     Movement.category := category; Movement.note := None |}.

Definition store (ms : list Movement.t) : db :=
  {| users := []; businesses := []; products := []; movements := ms |}.

(** February 2024 of business 1, with rows of the neighbouring months,
    of another business and of a third kind around it. *)
Definition db_february : db :=
  store [ mov 1 1 (Calendar.ymd2ord 2024 1 31) "venta" 9 None;
          mov 2 1 (Calendar.ymd2ord 2024 2 1) "venta" 100 None;
          mov 3 1 (Calendar.ymd2ord 2024 2 10) "gasto" 40 (Some "rent");
          mov 4 2 (Calendar.ymd2ord 2024 2 5) "venta" 1000 None;
          mov 5 1 (Calendar.ymd2ord 2024 2 11) "otro" 5 None;
          mov 6 1 (Calendar.ymd2ord 2024 2 29) "venta" 50 None;
          mov 7 1 (Calendar.ymd2ord 2024 3 1) "venta" 7 None ].

(** One sale in the last month of the calendar. *)
Definition db_december_9999 : db :=
  store [ mov 1 1 (Calendar.ymd2ord 9999 12 15) "venta" 10 None ].

(** One expense and no sale on 2024-01-01. *)
Definition db_expense_only : db :=
  store [ mov 1 1 jan_1_2024 "gasto" 50 None ].


(** Bodies of [POST /api/<bid>/movements]. *)
Definition movement_body (date time : string) (tipo : MovementBody.field)
  (amount : json) : MovementBody.t :=
  {| MovementBody.date_value := Some (JStr date);
     MovementBody.time_value := Some (JStr time);
     MovementBody.tipo_value := tipo;
     MovementBody.amount := Some amount;
     MovementBody.category := None;
     MovementBody.note := None |}.

Definition body_sale_100 : MovementBody.t :=
  movement_body "2024-01-01" "2024-01-01T10:00:00"
    (MovementBody.Text "venta") (JNum 100).

Definition body_unvalidated : MovementBody.t :=
  movement_body "2024-01-01" "2024-01-01T10:00:00"
    (MovementBody.Text "propina") (JStr "-5").



(** The example of the specification for business 1: two movements
    under "rent" and one without category; and a movement of another
    business under "rent". *)
Definition db_rent : db :=
  store [ mov 1 1 jan_1_2024 "gasto" 50 (Some "rent");
          mov 2 1 jan_1_2024 "gasto" 30 (Some "rent");
          mov 3 1 jan_1_2024 "venta" 20 None;
          mov 4 2 jan_1_2024 "venta" 1000 (Some "rent") ].

(** A movement of business 1 without category and one whose category is
    the text of the label itself; and a movement of another business
    without category. *)
Definition db_label_clash : db :=
  store [ mov 1 1 jan_1_2024 "venta" 20 None;
          mov 2 1 jan_1_2024 "venta" 5 (Some "sin-categoria");
          mov 3 2 jan_1_2024 "venta" 7 None ].

(** Sales of 10, 20, 30, 40 and 50 on the first five days of 2024, and
    an expense on the sixth. *)
Definition db_trend : db :=
  store [ mov 1 1 jan_1_2024 "venta" 10 None;
          mov 2 1 (jan_1_2024 + 1) "venta" 20 None;
          mov 3 1 (jan_1_2024 + 2) "venta" 30 None;
          mov 4 1 (jan_1_2024 + 3) "venta" 40 None;
          mov 5 1 (jan_1_2024 + 4) "venta" 50 None;
          mov 6 1 (jan_1_2024 + 5) "gasto" 15 None ].

(** The same sales of business 1, recorded out of order and two of them
    in two parts, among an expense of business 1 and sales of
    business 2 on later days. *)
Definition db_two_shops : db :=
  store [ mov 1 1 (jan_1_2024 + 4) "venta" 50 None;
          mov 2 2 (jan_1_2024 + 8) "venta" 700 None;
          mov 3 1 jan_1_2024 "venta" 4 None;
          mov 4 1 (jan_1_2024 + 2) "venta" 30 None;
          mov 5 1 (jan_1_2024 + 6) "gasto" 15 None;
          mov 6 1 (jan_1_2024 + 1) "venta" 20 None;
          mov 7 1 jan_1_2024 "venta" 6 None;
          mov 8 1 (jan_1_2024 + 3) "venta" 15 None;
          mov 9 2 (jan_1_2024 + 3) "venta" 900 None;
          mov 10 1 (jan_1_2024 + 3) "venta" 25 None ].

(** Business 1 has sales on three days and expenses on two more;
    business 2 has sales on two further days. *)
Definition db_three_sale_days : db :=
  store [ mov 1 1 jan_1_2024 "venta" 10 None;
          mov 2 1 (jan_1_2024 + 1) "venta" 20 None;
          mov 3 1 (jan_1_2024 + 2) "venta" 30 None;
          mov 4 1 (jan_1_2024 + 3) "gasto" 5 None;
          mov 5 1 (jan_1_2024 + 4) "gasto" 5 None;
          mov 6 2 (jan_1_2024 + 5) "venta" 60 None;
          mov 7 2 (jan_1_2024 + 6) "venta" 70 None ].

(** Sales on the last five days of the calendar. *)
Definition db_calendar_end : db :=
  store [ mov 1 1 (Calendar.ymd2ord 9999 12 27) "venta" 10 None;
          mov 2 1 (Calendar.ymd2ord 9999 12 28) "venta" 20 None;
          mov 3 1 (Calendar.ymd2ord 9999 12 29) "venta" 30 None;
          mov 4 1 (Calendar.ymd2ord 9999 12 30) "venta" 40 None;
          mov 5 1 (Calendar.ymd2ord 9999 12 31) "venta" 50 None ].

(** Sales on five days of 2024, one of them of an infinite amount. *)
Definition db_infinite_sale : db :=
  store [ mov 1 1 jan_1_2024 "venta" 10 None;
          mov 2 1 (jan_1_2024 + 1) "venta" 20 None;
          mov 3 1 (jan_1_2024 + 2) "venta" PrimFloat.infinity None;
          mov 4 1 (jan_1_2024 + 3) "venta" 40 None;
          mov 5 1 (jan_1_2024 + 4) "venta" 50 None ].

(** ** The forecast: [predict_sales] *)

(** The sale movements of a business:
    [business_id == bid AND tipo == 'venta']. *)
Definition sale_rows (d : db) (bid : Z) : list Movement.t :=
  filter (fun m => Movement.tipo m = venta) (movements_of d bid).

(** The distinct calendar dates on which a business has a sale. *)
Definition sale_dates (d : db) (bid : Z) : gset Z :=
  list_to_set (Movement.date <$> sale_rows d bid).

(** The sale amounts of a business on a day, in row order. *)
Definition sale_amounts (d : db) (bid day : Z) : list float :=
  Movement.amount <$> filter (fun m => Movement.date m = day) (sale_rows d bid).

(** [max()] of a column of dates (0 stands for the maximum of an empty
    column, which [predict_sales] never takes). *)
Definition column_max (xs : list Z) : Z :=
  match xs with
  | [] => 0
  | x :: xs' => foldl Z.max x xs'
  end.

(** A total read into the data frame: NULL becomes NaN. *)
Definition frame_total (v : option float) : float :=
  match v with
  | Some x => x
  | None => PrimFloat.nan
  end.

Section App.

(** scikit-learn's estimator, as the code uses it: [fit] on the training
    pairs (date ordinal, daily total), in the order of the rows, gives a
    fitted model or raises; [predict] evaluates the model at an
    ordinal. *)
Variable LinearRegression : Type.
Variable fit : list (Z * float) -> result LinearRegression.
Variable predict : LinearRegression -> Z -> float.

(** The rows of the grouped query: one per sale date, in date order. *)
Definition sale_totals (d : db) (bid : Z) : list (Z * option float) :=
  group_by_sum Z.leb Movement.date (sale_rows d bid).

(** The training pairs [X], [y]: one per row of the grouped query. *)
Definition training (d : db) (bid : Z) : list (Z * float) :=
  (fun r => (fst r, frame_total (snd r))) <$> sale_totals d bid.

(** One entry of the forecast: [i] days after [last]. *)
Definition forecast_day (model : LinearRegression) (last i : Z)
  : result (Z * float) :=
  let* day := Timestamp.plus_days last i in
  Ok (day, predict model day).

Definition predict_sales (d : db) (bid : Z)
  : result (reply (list (Z * float))) :=
  let* bid := bind_integer bid in
  let rows := sale_totals d bid in
  if Z.of_nat (length rows) <? 5
  then Ok (Failure 400 "Not enough data for prediction")
  else
    let* _ := traverse Timestamp.to_datetime (fst <$> rows) in
    let* model := fit (training d bid) in
    let last := column_max (fst <$> rows) in
    let* preds := traverse (forecast_day model last) (seqZ 1 7) in
    Ok (Success preds).

(** ** The REST handlers *)

(** Python's parsers of text: [datetime.fromisoformat], giving the date
    and the time of day, and [float] on a string. [None] is their
    [ValueError]. *)
Variable fromisoformat : string -> option (Z * Z).
Variable float_of_str : string -> option float.

(** [datetime.fromisoformat(v)]: a [TypeError] for what is not a
    text. *)
Definition parse_datetime (v : json) : result (Z * Z) :=
  match v with
  | JStr s =>
      match fromisoformat s with
      | Some dt => Ok dt
      | None => Raise ValueError
      end
  | _ => Raise TypeError
  end.

(** [float(v)] *)
Definition py_float (v : json) : result float :=
  match v with
  | JNull => Raise TypeError
  | JBool b => Ok (if b then 1%float else 0%float)
  | JInt z =>
      match float_of_int z with
      | Some x => Ok x
      | None => Raise OverflowError
      end
  | JNum x => Ok x
  | JStr s =>
      match float_of_str s with
      | Some x => Ok x
      | None => Raise ValueError
      end
  | JCompound => Raise TypeError
  end.

(** [float(data.get(key, 0))] *)
Definition py_float_or_0 (v : option json) : result float :=
  match v with
  | Some j => py_float j
  | None => Ok 0%float
  end.

(** The rows that [GET /api/<bid>/movements] answers, for a [bid] that
    the store binds. *)
Definition api_movements_get (d : db) (bid : Z) : list Movement.t :=
  movements_of d bid.

(** The movement that an accepted body stores. *)
Definition stored_movement (d : db) (bid : Z) (dt tm : Z * Z) (tipo : string)
  (a : float) (data : MovementBody.t) : Movement.t :=
  {| Movement.id := next_id (Movement.id <$> movements d);
     Movement.business_id := bid;
     Movement.date := fst dt;
     Movement.time := snd tm;
     Movement.tipo := tipo;
     Movement.amount := a;
     Movement.category := MovementBody.category data;
     Movement.note := MovementBody.note data |}.

(** [POST /api/<bid>/movements]: the new store and the new id. The
    arguments of [Movement(...)] are evaluated in the order they are
    written. The commit binds the values, then inserts the row: the kind
    and the amount are NOT NULL columns, so a null kind and a NaN, which
    is stored as NULL, fail it. No foreign key is enforced on
    [business_id]. *)
Definition api_movements_post (d : db) (bid : Z) (data : MovementBody.t)
  : result (db * Z) :=
  let* date_v := subscript "date" (MovementBody.date_value data) in
  let* dt := parse_datetime date_v in
  let* time_v := subscript "time" (MovementBody.time_value data) in
  let* tm := parse_datetime time_v in
  let* tipo :=
    match MovementBody.tipo_value data with
    | MovementBody.Absent => Raise (KeyError "tipo")
    | MovementBody.Null => Ok None
    | MovementBody.Text s => Ok (Some s)
    end in
  let* amount_v := subscript "amount" (MovementBody.amount data) in
  let* amount := py_float amount_v in
  let* bid := bind_integer bid in
  match tipo, sql_real amount with
  | Some tipo, Some a =>
      let m := stored_movement d bid dt tm tipo a data in
      Ok (add_movement d m, Movement.id m)
  | _, _ => Raise IntegrityError
  end.

(** What a body must carry for the handler to reach and pass the commit:
    a date and a time that are texts and parse, a kind that is a text,
    and an amount that [float()] converts to something other than
    NaN. *)
Definition accepted (data : MovementBody.t) (dt tm : Z * Z) (tipo : string)
  (a : float) : Prop :=
  exists date_s time_s v,
    MovementBody.date data = Some date_s /\ fromisoformat date_s = Some dt /\
    MovementBody.time data = Some time_s /\ fromisoformat time_s = Some tm /\
    MovementBody.tipo data = Some tipo /\
    MovementBody.amount data = Some v /\ py_float v = Ok a /\
    PrimFloat.is_nan a = false.

(** The rows that [GET /api/<bid>/products] answers, for a [bid] that
    the store binds. *)
Definition api_products_get (d : db) (bid : Z) : list Product.t :=
  filter (fun p => Product.business_id p = bid) (products d).

(** [POST /api/<bid>/products] *)
Definition api_products_post (d : db) (bid : Z) (data : ProductBody.t)
  : result (db * Z) :=
  let* name := subscript "name" (ProductBody.name data) in
  let* cost := py_float_or_0 (ProductBody.cost data) in
  let* price := py_float_or_0 (ProductBody.price data) in
  let stock := default 0 (ProductBody.stock data) in
  let* bid := bind_integer bid in
  let* stock := bind_integer stock in
  let p :=
    {| Product.id := next_id (Product.id <$> products d);
       Product.business_id := bid;
       Product.name := name;
       Product.cost := sql_real cost;
       Product.price := sql_real price;
       Product.stock := Some stock |} in
  Ok (add_product d p, Product.id p).

(** ** The routes *)

(** The routes behind [login_required]. The business, movement, year
    and month of a URL are non-negative integers. *)
Inductive member_request : Type :=
  | Dashboard
  | CreateBusinessForm
  | CreateBusiness (name : option string)
  | ApiBusinesses
  | ApiMovementsGet (bid : Z)
  | ApiMovementsPost (bid : Z) (data : MovementBody.t)
  | ApiProductsGet (bid : Z)
  | ApiProductsPost (bid : Z) (data : ProductBody.t)
  | PlotSales (bid : option Z)
  | PlotCategory (bid : option Z)
  | PredictSales (bid : Z)
  | Ticket (mid : Z)
  | ExportCsv (bid : Z)
  | ExportXlsx (bid : Z)
  | FiscalReport (bid year month : Z).

(** All routes. [AuthCallback] carries what the identity provider says
    of the user: ['sub'], ['email'] and ['name']. *)
Inductive request : Type :=
  | Index
  | Login
  | AuthCallback (sub : string) (email name : option string)
  | Logout
  | Member (req : member_request).

(** What a route comes to. [Plot], [Pie] and [Sheet] say that the route
    has reached [ax.plot], [ax.pie] or the spreadsheet writer with
    these data; what the library makes of them is not part of the model
    (matplotlib refuses to draw some charts, a pie with a negative value
    or without any value among them). *)
Inductive response : Type :=
  | Redirect (endpoint : string)
  | Page (user_name : option string) (business : option Business.t)
  | Form
  | Businesses (bs : list Business.t)
  | Movements (ms : list Movement.t)
  | Products (ps : list Product.t)
  | Created (id : Z)
  | Plot (points : list (Z * float))
  | Pie (slices : list (string * float))
  | Forecast (preds : list (Z * float))
  | Sheet (ms : list Movement.t)
  | Printed (m : Movement.t) (business_name : string)
  | Report (r : fiscal)
  | Error (status : Z) (error : string)
  | Uncaught (e : exn).

(** [current_user()]: the user row of the session's [user_id] (an
    absent and a zero [user_id] are falsy). *)
Definition current_user (d : db) (uid : option Z) : option User.t :=
  match uid with
  | None => None
  | Some u =>
      if u =? 0 then None
      else snd <$> list_find (fun usr => User.id usr = u) (users d)
  end.

Definition uncaught {A} (d : db) (r : result A) (k : A -> db * response)
  : db * response :=
  match r with
  | Ok a => k a
  | Raise e => (d, Uncaught e)
  end.

(** The body of a route behind [login_required], for the logged-in
    [user]; [today] is the clock's date. Every query binds the id of the
    URL first; for [get_or_404] that shows only when the id is not a
    stored one, the stored ids being integers of 64 bits. *)
Definition serve (today : Z) (user : User.t) (d : db) (req : member_request)
  : db * response :=
  match req with
  | Dashboard =>
      let businesses :=
        filter (fun b => Business.owner_id b = User.id user) (businesses d) in
      (d, Page (User.name user) (head businesses))
  | CreateBusinessForm => (d, Form)
  | CreateBusiness None => (d, Error 400 "name")
  | CreateBusiness (Some name) =>
      let b := {| Business.id := next_id (Business.id <$> businesses d);
                  Business.name := name;
                  Business.owner_id := User.id user |} in
      (add_business d b, Redirect "dashboard")
  | ApiBusinesses =>
      (d, Businesses (filter (fun b => Business.owner_id b = User.id user)
                             (businesses d)))
  | ApiMovementsGet bid =>
      uncaught d (bind_integer bid)
               (fun bid => (d, Movements (api_movements_get d bid)))
  | ApiMovementsPost bid data =>
      uncaught d (api_movements_post d bid data)
               (fun r => (fst r, Created (snd r)))
  | ApiProductsGet bid =>
      uncaught d (bind_integer bid)
               (fun bid => (d, Products (api_products_get d bid)))
  | ApiProductsPost bid data =>
      uncaught d (api_products_post d bid data)
               (fun r => (fst r, Created (snd r)))
  | PlotSales bid =>
      uncaught d (plot_sales_route d bid today) (fun s => (d, Plot s))
  | PlotCategory bid =>
      uncaught d (plot_category d bid) (fun s => (d, Pie s))
  | PredictSales bid =>
      uncaught d (predict_sales d bid)
               (fun r => match r with
                         | Success preds => (d, Forecast preds)
                         | Failure status error => (d, Error status error)
                         end)
  | Ticket mid =>
      match list_find (fun m => Movement.id m = mid) (movements d) with
      | None =>
          uncaught d (bind_integer mid) (fun _ => (d, Error 404 "Not Found"))
      | Some (_, m) =>
          match list_find (fun b => Business.id b = Movement.business_id m)
                          (businesses d) with
          | None => (d, Uncaught AttributeError)
          | Some (_, b) => (d, Printed m (Business.name b))
          end
      end
  | ExportCsv bid =>
      uncaught d (bind_integer bid) (fun _ => (d, Uncaught (NameError "csv")))
  | ExportXlsx bid =>
      uncaught d (bind_integer bid) (fun bid => (d, Sheet (movements_of d bid)))
  | FiscalReport bid year month =>
      uncaught d (fiscal_report d bid year month) (fun r => (d, Report r))
  end.

(** [auth_callback]: the user of that [google_id], created on the first
    login (the email column is NOT NULL and unique). *)
Definition auth_callback (d : db) (sub : string) (email name : option string)
  : result (db * Z) :=
  match list_find (fun usr => User.google_id usr = sub) (users d) with
  | Some (_, user) => Ok (d, User.id user)
  | None =>
      match email with
      | None => Raise IntegrityError
      | Some e =>
          if decide (e ∈ User.email <$> users d)
          then Raise IntegrityError
          else
            let user := {| User.id := next_id (User.id <$> users d);
                           User.google_id := sub;
                           User.email := e;
                           User.name := name |} in
            Ok (add_user d user, User.id user)
      end
  end.

(** One request against the store, in a session whose [user_id] is
    [uid]: the store and the session afterwards, and the answer. *)
Definition handle (today : Z) (uid : option Z) (d : db) (req : request)
  : db * option Z * response :=
  match req with
  | Index =>
      match current_user d uid with
      | None => (d, uid, Redirect "login")
      | Some _ => (d, uid, Redirect "dashboard")
      end
  | Login => (d, uid, Redirect "google")
  | AuthCallback sub email name =>
      match auth_callback d sub email name with
      | Ok (d', id) => (d', Some id, Redirect "dashboard")
      | Raise e => (d, uid, Uncaught e)
      end
  | Logout => (d, None, Redirect "index")
  | Member req' =>
      match current_user d uid with
      | None => (d, uid, Redirect "login")
      | Some user =>
          let (d', r) := serve today user d req' in (d', uid, r)
      end
  end.

(** A run of requests of one session, each at its clock's date. *)
Fixpoint run (uid : option Z) (d : db) (reqs : list (Z * request)) : db :=
  match reqs with
  | [] => d
  | (today, req) :: reqs' =>
      let '(d', uid', _) := handle today uid d req in run uid' d' reqs'
  end.

End App.

Arguments forecast_day {LinearRegression} predict model last i.
Arguments predict_sales {LinearRegression} fit predict d bid.
Arguments serve {LinearRegression} fit predict fromisoformat float_of_str
  today user d req.
Arguments handle {LinearRegression} fit predict fromisoformat float_of_str
  today uid d req.
Arguments run {LinearRegression} fit predict fromisoformat float_of_str
  uid d reqs.

(** ** The constraints of the schema *)

(** A primary key column: distinct values, from 1 on. *)
Definition keyed (ids : list Z) : Prop :=
  NoDup ids /\ Forall (fun i => 1 <= i) ids.

(** What the tables declare: the four primary keys, and the unique
    [google_id] and [email] of users. *)
Definition consistent (d : db) : Prop :=
  keyed (User.id <$> users d)
  /\ NoDup (User.google_id <$> users d)
  /\ NoDup (User.email <$> users d)
  /\ keyed (Business.id <$> businesses d)
  /\ keyed (Product.id <$> products d)
  /\ keyed (Movement.id <$> movements d).

(** The store [d'] is [d], or [d] with one row appended to one table
    under the next id of that table (for a user: one whose [google_id]
    and [email] no user has yet). *)
Definition appends_one_row (d d' : db) : Prop :=
  d' = d
  \/ (exists u, d' = add_user d u
                /\ User.id u = next_id (User.id <$> users d)
                /\ (User.google_id u ∉ User.google_id <$> users d)
                /\ (User.email u ∉ User.email <$> users d))
  \/ (exists b, d' = add_business d b
                /\ Business.id b = next_id (Business.id <$> businesses d))
  \/ (exists p, d' = add_product d p
                /\ Product.id p = next_id (Product.id <$> products d))
  \/ (exists m, d' = add_movement d m
                /\ Movement.id m = next_id (Movement.id <$> movements d)).

(** The number of rows of the store. *)
Definition rows (d : db) : nat :=
  (length (users d) + length (businesses d)
   + length (products d) + length (movements d))%nat.

(** The one route that logs a user in. *)
Definition is_callback (req : request) : bool :=
  match req with
  | AuthCallback _ _ _ => true
  | _ => false
  end.

(** The routes whose body reads the logged-in user. *)
Definition reads_user (req : member_request) : bool :=
  match req with
  | Dashboard | CreateBusiness _ | ApiBusinesses => true
  | _ => false
  end.

(** A store with one user and the business she owns, and bodies for
    the examples. *)
Definition ana : User.t :=
  {| User.id := 1; User.google_id := "g-ana"; User.email := "ana@example.org";
     User.name := Some "Ana" |}.

Definition db_ana : db :=
  {| users := [ana];
     businesses := [ {| Business.id := 1; Business.name := "Tienda";
                        Business.owner_id := 1 |} ];
     products := [];
     movements := [ mov 1 1 jan_1_2024 "venta" 10 None ] |}.

(** A second user, and a session in which he logs in for the first
    time, creates a business and records a sale for it. *)
Definition bob : User.t :=
  {| User.id := 2; User.google_id := "g-bob"; User.email := "bob@example.org";
     User.name := None |}.

Definition session_bob : list (Z * request) :=
  [ (jan_1_2024, AuthCallback "g-bob" (Some "bob@example.org") None);
    (jan_1_2024, Member (CreateBusiness (Some "Bar")));
    (jan_1_2024, Member (ApiMovementsPost 2 body_sale_100)) ].

(** A session that never logs in. *)
Definition session_anonymous : list (Z * request) :=
  [ (jan_1_2024, Member (ApiMovementsPost 1 body_sale_100));
    (jan_1_2024, Logout);
    (jan_1_2024, Index);
    (jan_1_2024, Member (CreateBusiness (Some "Bar"))) ].

Definition body_product : ProductBody.t :=
  {| ProductBody.name := Some "pan"; ProductBody.cost := None;
     ProductBody.price := Some (JStr "3"); ProductBody.stock := None |}.

(** * Properties *)

(** ** The write path and the reads of one business *)

Lemma foldr_max_ge (ids : list Z) (i : Z) : i ∈ ids -> i <= foldr Z.max 0 ids.
Proof.
  induction ids as [|j ids IH]; intros Hin.
  - by apply elem_of_nil in Hin.
  - apply elem_of_cons in Hin as [->|Hin]; simpl; [lia|].
    specialize (IH Hin). lia.
Qed.

Lemma next_id_fresh (ids : list Z) : next_id ids ∉ ids.
Proof.
  intros Hin. apply foldr_max_ge in Hin. unfold next_id in Hin. lia.
Qed.

Lemma movements_of_arg_Some d bid :
  movements_of_arg d (Some bid) = movements_of d bid.
Proof.
  unfold movements_of_arg, movements_of.
  apply list_filter_iff. intros m. split; [by intros [= ->]|by intros ->].
Qed.

Lemma movements_of_add d bid m :
  movements_of (add_movement d m) bid =
  movements_of d bid ++ (if decide (Movement.business_id m = bid) then [m] else []).
Proof.
  unfold movements_of, add_movement. simpl. rewrite filter_app.
  reflexivity.
Qed.

Lemma bind_integer_Ok (z : Z) : sqlite_integer z = true -> bind_integer z = Ok z.
Proof. unfold bind_integer. by intros ->. Qed.

Lemma bind_integer_Raise (z : Z) :
  sqlite_integer z = false -> bind_integer z = Raise OverflowError.
Proof. unfold bind_integer. by intros ->. Qed.

Lemma bind_integer_inv (z z' : Z) :
  bind_integer z = Ok z' -> z' = z /\ sqlite_integer z = true.
Proof.
  unfold bind_integer. destruct (sqlite_integer z); [|done].
  by intros [= <-].
Qed.

(** C8. Tenant isolation of reads: every movement answered by
    [GET /api/<bid>/movements] has [business_id] equal to [bid], whatever
    the store holds; and the answer leaves out no stored movement of that
    business. *)
Theorem api_movements_get_isolation (d : db) (bid : Z) :
  Forall (fun m => Movement.business_id m = bid) (api_movements_get d bid)
  /\ (forall m, m ∈ movements d -> Movement.business_id m = bid ->
                m ∈ api_movements_get d bid).
Proof.
  unfold api_movements_get, movements_of. split.
  - apply Forall_forall. intros m Hm. by apply list_elem_of_filter in Hm as [? _].
  - intros m Hm Hb. by apply list_elem_of_filter.
Qed.

(** ** The calendar *)

Lemma days_before_year_succ (y : Z) :
  Calendar.days_before_year (y + 1) =
  Calendar.days_before_year y + 365 + (if Calendar.is_leap y then 1 else 0).
Proof.
  unfold Calendar.days_before_year, Calendar.is_leap.
  destruct (Z.eqb_spec (y mod 4) 0), (Z.eqb_spec (y mod 100) 0),
    (Z.eqb_spec (y mod 400) 0); simpl; Z.div_mod_to_equations; lia.
Qed.

Lemma days_before_year_mono (y1 y2 : Z) :
  y1 <= y2 -> Calendar.days_before_year y1 <= Calendar.days_before_year y2.
Proof.
  unfold Calendar.days_before_year. intros. Z.div_mod_to_equations. lia.
Qed.

Ltac month_cases m :=
  let H := fresh in
  assert (H : m = 1 \/ m = 2 \/ m = 3 \/ m = 4 \/ m = 5 \/ m = 6 \/ m = 7
              \/ m = 8 \/ m = 9 \/ m = 10 \/ m = 11 \/ m = 12) by lia;
  repeat (destruct H as [H|H]; [subst m|]); [..|subst m].

Lemma days_before_month_succ (y m : Z) :
  1 <= m <= 11 ->
  Calendar.days_before_month y (m + 1) =
  Calendar.days_before_month y m + Calendar.days_in_month y m.
Proof.
  intros Hm. unfold Calendar.days_before_month, Calendar.days_in_month.
  month_cases m; try lia; destruct (Calendar.is_leap y); reflexivity.
Qed.

Lemma days_before_month_12 (y : Z) :
  Calendar.days_before_month y 12 + Calendar.days_in_month y 12 =
  365 + (if Calendar.is_leap y then 1 else 0).
Proof.
  unfold Calendar.days_before_month, Calendar.days_in_month.
  destruct (Calendar.is_leap y); reflexivity.
Qed.

Lemma days_in_month_pos (y m : Z) : 1 <= m <= 12 -> 28 <= Calendar.days_in_month y m.
Proof.
  intros Hm. unfold Calendar.days_in_month.
  month_cases m; destruct (Calendar.is_leap y); simpl; lia.
Qed.

Lemma days_before_month_mono (y m1 m2 : Z) :
  1 <= m1 -> m1 < m2 -> m2 <= 12 ->
  Calendar.days_before_month y m1 + Calendar.days_in_month y m1
  <= Calendar.days_before_month y m2.
Proof.
  intros H1 H12 H2.
  unfold Calendar.days_before_month, Calendar.days_in_month.
  month_cases m1; month_cases m2; try lia;
    destruct (Calendar.is_leap y); simpl; lia.
Qed.

Lemma days_before_month_nonneg (y m : Z) :
  1 <= m <= 12 -> 0 <= Calendar.days_before_month y m.
Proof.
  intros Hm. unfold Calendar.days_before_month.
  month_cases m; destruct (Calendar.is_leap y); simpl; lia.
Qed.

Lemma check_date_fields_true (y m dd : Z) :
  Calendar.check_date_fields y m dd = true <->
  1 <= y <= 9999 /\ 1 <= m <= 12 /\ 1 <= dd <= Calendar.days_in_month y m.
Proof.
  unfold Calendar.check_date_fields, Calendar.MINYEAR, Calendar.MAXYEAR.
  rewrite !andb_true_iff, !Z.leb_le. lia.
Qed.

Lemma c_int_true (z : Z) : Calendar.c_int z = true <-> - 2 ^ 31 <= z < 2 ^ 31.
Proof. unfold Calendar.c_int. rewrite andb_true_iff, Z.leb_le, Z.ltb_lt. lia. Qed.

Lemma c_int_small (z : Z) : 0 <= z <= 10000 -> Calendar.c_int z = true.
Proof. intros. apply c_int_true. lia. Qed.

(** A valid date lies between the first and the last day of a month
    exactly when it is a date of that month. *)
Lemma ordinal_in_month (y m y' m' d' : Z) :
  1 <= m <= 12 ->
  Calendar.check_date_fields y' m' d' = true ->
  (Calendar.ymd2ord y m 1 <= Calendar.ymd2ord y' m' d'
     <= Calendar.ymd2ord y m (Calendar.days_in_month y m))
  <-> y' = y /\ m' = m.
Proof.
  intros Hm Hv. apply check_date_fields_true in Hv as (Hy' & Hm' & Hd').
  unfold Calendar.ymd2ord.
  pose proof (days_before_month_nonneg y m Hm) as N1.
  pose proof (days_before_month_nonneg y' m' Hm') as N2.
  pose proof (days_in_month_pos y m Hm) as P1.
  pose proof (days_before_month_12 y) as T1.
  pose proof (days_before_month_12 y') as T2.
  pose proof (days_before_year_succ y) as S1.
  pose proof (days_before_year_succ y') as S2.
  assert (B1 : Calendar.days_before_month y m + Calendar.days_in_month y m
               <= 365 + (if Calendar.is_leap y then 1 else 0)).
  { destruct (decide (m = 12)) as [->|]; [lia|].
    pose proof (days_before_month_mono y m 12).
    pose proof (days_in_month_pos y 12). lia. }
  assert (B2 : Calendar.days_before_month y' m' + Calendar.days_in_month y' m'
               <= 365 + (if Calendar.is_leap y' then 1 else 0)).
  { destruct (decide (m' = 12)) as [->|]; [lia|].
    pose proof (days_before_month_mono y' m' 12).
    pose proof (days_in_month_pos y' 12). lia. }
  split.
  - intros [Hlo Hhi].
    destruct (Z.lt_trichotomy y' y) as [Hlt|[Heq|Hgt]].
    + pose proof (days_before_year_mono (y' + 1) y). lia.
    + subst y'. split; [done|].
      destruct (Z.lt_trichotomy m' m) as [Hlt|[Heq|Hgt]]; [|done|].
      * pose proof (days_before_month_mono y m' m). lia.
      * pose proof (days_before_month_mono y m m'). lia.
    + pose proof (days_before_year_mono (y + 1) y'). lia.
  - intros [-> ->]. lia.
Qed.

(** ** The fiscal report *)

Lemma new_date_Ok (y m dd : Z) :
  1 <= y <= 9999 -> 1 <= m <= 12 -> 1 <= dd <= Calendar.days_in_month y m ->
  Calendar.new_date y m dd = Ok (Calendar.ymd2ord y m dd).
Proof.
  intros Hy Hm Hd. unfold Calendar.new_date.
  assert (Calendar.days_in_month y m <= 31).
  { unfold Calendar.days_in_month.
    month_cases m; destruct (Calendar.is_leap y); simpl; lia. }
  rewrite !c_int_small by lia. simpl.
  by rewrite (proj2 (check_date_fields_true y m dd)).
Qed.

(** What [datetime(y, m, 1)] raises: [OverflowError] for a year or a
    month that does not fit a C [int], [ValueError] for one outside the
    calendar. *)
Lemma new_date_first (y m : Z) :
  Calendar.new_date y m 1 =
  if Calendar.c_int y && Calendar.c_int m
  then if decide (1 <= y <= 9999 /\ 1 <= m <= 12)
       then Ok (Calendar.ymd2ord y m 1)
       else Raise ValueError
  else Raise OverflowError.
Proof.
  unfold Calendar.new_date. rewrite (c_int_small 1) by lia.
  rewrite andb_true_r. destruct (_ && _); [|done].
  destruct (Calendar.check_date_fields y m 1) eqn:Hc.
  - apply check_date_fields_true in Hc. by rewrite decide_True by tauto.
  - rewrite decide_False; [done|]. intros [Hy Hm].
    pose proof (days_in_month_pos y m Hm).
    rewrite (proj2 (check_date_fields_true y m 1)) in Hc by lia. done.
Qed.

Lemma month_end_last_day (y m : Z) :
  1 <= y <= 9999 -> 1 <= m <= 12 -> ~ (y = 9999 /\ m = 12) ->
  month_end y m = Ok (Calendar.ymd2ord y m (Calendar.days_in_month y m)).
Proof.
  intros Hy Hm Hne. unfold month_end.
  destruct (Z.eqb_spec m 12) as [->|Hm12].
  - rewrite new_date_Ok by (try (change (Calendar.days_in_month (y + 1) 1) with 31); lia).
    simpl. f_equal. unfold Calendar.minus_days, Calendar.ymd2ord.
    rewrite days_before_year_succ.
    pose proof (days_before_month_12 y).
    change (Calendar.days_before_month (y + 1) 1) with 0. lia.
  - pose proof (days_in_month_pos y (m + 1)).
    rewrite new_date_Ok by lia.
    simpl. f_equal. unfold Calendar.minus_days, Calendar.ymd2ord.
    rewrite days_before_month_succ by lia. lia.
Qed.

Lemma fiscal_report_Ok (d : db) (bid y m : Z) :
  1 <= y <= 9999 -> 1 <= m <= 12 -> ~ (y = 9999 /\ m = 12) ->
  fiscal_report d bid y m =
  if sqlite_integer bid then Ok (report_of d bid y m) else Raise OverflowError.
Proof.
  intros Hy Hm Hne. unfold fiscal_report.
  pose proof (days_in_month_pos y m Hm).
  rewrite new_date_Ok by lia. simpl.
  rewrite month_end_last_day by done. simpl.
  unfold bind_integer. by destruct (sqlite_integer bid).
Qed.

Lemma fiscal_report_Ok_inv (d : db) (bid y m : Z) (r : fiscal) :
  fiscal_report d bid y m = Ok r ->
  1 <= y <= 9999 /\ 1 <= m <= 12 /\ ~ (y = 9999 /\ m = 12)
  /\ sqlite_integer bid = true /\ r = report_of d bid y m.
Proof.
  intros Hr.
  assert (Hym : 1 <= y <= 9999 /\ 1 <= m <= 12).
  { unfold fiscal_report in Hr. rewrite new_date_first in Hr.
    destruct (_ && _); [|done]. by case_decide. }
  destruct Hym as [Hy Hm].
  assert (Hne : ~ (y = 9999 /\ m = 12)).
  { intros [-> ->]. discriminate. }
  rewrite fiscal_report_Ok in Hr by done.
  destruct (sqlite_integer bid); [|done]. by injection Hr as <-.
Qed.

Lemma filter_kind_snoc (rows : list Movement.t) (m : Movement.t) (k : string)
  (P : Movement.t -> Prop) `{!forall x, Decision (P x)} :
  Movement.tipo m <> k ->
  filter (fun r => Movement.tipo r = k) (filter P (rows ++ [m])) =
  filter (fun r => Movement.tipo r = k) (filter P rows).
Proof.
  intros Hk. rewrite !filter_app.
  rewrite (filter_cons P m []), filter_nil.
  destruct (decide (P m)); [|by rewrite filter_nil, app_nil_r].
  rewrite (filter_cons _ m []), filter_nil.
  destruct (decide (Movement.tipo m = k)); [done|by rewrite app_nil_r].
Qed.

Lemma fiscal_report_add_other (d : db) (m0 : Movement.t) (b y mo : Z) :
  Movement.tipo m0 <> venta -> Movement.tipo m0 <> gasto ->
  fiscal_report (add_movement d m0) b y mo = fiscal_report d b y mo.
Proof.
  intros Hv Hg. unfold fiscal_report.
  destruct (Calendar.new_date y mo 1) as [start|]; simpl; [|done].
  destruct (month_end y mo) as [end_|]; simpl; [|done].
  destruct (bind_integer b) as [b'|]; simpl; [|done].
  unfold fiscal_rows, add_movement; simpl.
  by rewrite !filter_kind_snoc.
Qed.

(** Where no report is produced, the failure does not depend on the
    store. *)
Lemma fiscal_report_no_report (d d' : db) (bid y mo : Z) :
  ~ (1 <= y <= 9999 /\ 1 <= mo <= 12 /\ ~ (y = 9999 /\ mo = 12)) ->
  fiscal_report d bid y mo = fiscal_report d' bid y mo.
Proof.
  intros Hinv. unfold fiscal_report. rewrite new_date_first.
  destruct (_ && _); [|done]. case_decide as Hym; [|done].
  assert (y = 9999 /\ mo = 12) as [-> ->] by lia. reflexivity.
Qed.

(** ** The daily series *)

Lemma daily_totals_dates (d : db) (bid : option Z) (dates : list Z) :
  (daily_totals d bid dates).*1 = dates.
Proof.
  unfold daily_totals. rewrite <- list_fmap_compose.
  rewrite <- (list_fmap_id dates) at 2. by apply list_fmap_ext.
Qed.

(** The series of [plot_sales] is dense: the 30 days up to [today], each
    once and in order. *)
Lemma plot_sales_dates (d : db) (bid : option Z) (today : Z) :
  (plot_sales d bid today).*1 = seqZ (today - 29) 30.
Proof.
  unfold plot_sales, Calendar.date_range, Calendar.minus_days.
  rewrite daily_totals_dates. f_equal. lia.
Qed.




(** ** The order of the groups *)

Section SortKeys.

Context {K : Type} (leb : K -> K -> bool).

Lemma insert_key_Permutation (k : K) (l : list K) : insert_key leb k l ≡ₚ k :: l.
Proof.
  induction l as [|x l IH]; simpl; [done|].
  destruct (leb k x); [done|]. rewrite IH. apply Permutation_swap.
Qed.

Lemma sort_keys_Permutation (l : list K) : sort_keys leb l ≡ₚ l.
Proof.
  induction l as [|x l IH]; [done|].
  unfold sort_keys in *. simpl. rewrite insert_key_Permutation.
  by f_equiv.
Qed.

Lemma elem_of_sort_keys (l : list K) (k : K) : k ∈ sort_keys leb l <-> k ∈ l.
Proof. by rewrite sort_keys_Permutation. Qed.

Lemma length_sort_keys (l : list K) : length (sort_keys leb l) = length l.
Proof. by rewrite sort_keys_Permutation. Qed.

Lemma NoDup_sort_keys (l : list K) : NoDup l -> NoDup (sort_keys leb l).
Proof. by rewrite sort_keys_Permutation. Qed.

Hypothesis leb_total : forall a b, leb a b = true \/ leb b a = true.
Hypothesis leb_trans :
  forall a b c, leb a b = true -> leb b c = true -> leb a c = true.

Lemma insert_key_sorted (k : K) (l : list K) :
  StronglySorted (fun a b => leb a b = true) l ->
  StronglySorted (fun a b => leb a b = true) (insert_key leb k l).
Proof using leb_total leb_trans.
  induction 1 as [|x l Hl IH Hx]; simpl.
  - repeat constructor.
  - destruct (leb k x) eqn:Hkx.
    + constructor; [by constructor|].
      constructor; [done|].
      eapply Forall_impl; [exact Hx|]. intros y Hy. by eapply leb_trans.
    + constructor; [done|].
      rewrite insert_key_Permutation. constructor; [|done].
      destruct (leb_total k x); congruence.
Qed.

Lemma sort_keys_sorted (l : list K) :
  StronglySorted (fun a b => leb a b = true) (sort_keys leb l).
Proof using leb_total leb_trans.
  induction l as [|x l IH]; [constructor|].
  by apply insert_key_sorted.
Qed.

End SortKeys.

Lemma string_leb_trans (s1 s2 s3 : string) :
  String.leb s1 s2 = true -> String.leb s2 s3 = true -> String.leb s1 s3 = true.
Proof.
  unfold String.leb. revert s2 s3.
  induction s1 as [|c1 s1 IH]; intros [|c2 s2] [|c3 s3]; simpl; try done.
  unfold Ascii.compare.
  destruct (N.compare_spec (Ascii.N_of_ascii c1) (Ascii.N_of_ascii c2)) as [E12|L12|G12],
    (N.compare_spec (Ascii.N_of_ascii c2) (Ascii.N_of_ascii c3)) as [E23|L23|G23],
    (N.compare_spec (Ascii.N_of_ascii c1) (Ascii.N_of_ascii c3)) as [E13|L13|G13];
    try done; try lia.
  apply IH.
Qed.

Lemma text_leb_total (a b : option string) :
  text_leb a b = true \/ text_leb b a = true.
Proof.
  destruct a as [s|], b as [t|]; simpl; auto. apply String.leb_total.
Qed.

Lemma text_leb_trans (a b c : option string) :
  text_leb a b = true -> text_leb b c = true -> text_leb a c = true.
Proof.
  destruct a as [s|], b as [t|], c as [u|]; simpl; try done.
  apply string_leb_trans.
Qed.

Lemma Z_leb_total (a b : Z) : (a <=? b) = true \/ (b <=? a) = true.
Proof. rewrite !Z.leb_le. lia. Qed.

Lemma Z_leb_trans (a b c : Z) :
  (a <=? b) = true -> (b <=? c) = true -> (a <=? c) = true.
Proof. rewrite !Z.leb_le. lia. Qed.

(** Ascending and without repetition is strictly ascending. *)
Lemma sorted_NoDup_lt (l : list Z) :
  StronglySorted (fun a b => (a <=? b) = true) l -> NoDup l ->
  StronglySorted Z.lt l.
Proof.
  induction 1 as [|x l Hl IH Hx]; intros Hnd; [constructor|].
  apply NoDup_cons in Hnd as [Hx' Hnd]. constructor; [by apply IH|].
  apply Forall_forall. intros y Hy.
  eapply Forall_forall in Hx; [|exact Hy]. apply Z.leb_le in Hx.
  assert (x <> y) by (by intros ->). lia.
Qed.

(** ** Grouped queries *)

Lemma group_by_sum_keys {K : Type} `{EqDecision K} (leb : K -> K -> bool)
  (key : Movement.t -> K) (rows : list Movement.t) :
  (group_by_sum leb key rows).*1 = sort_keys leb (remove_dups (key <$> rows)).
Proof.
  unfold group_by_sum. rewrite <- list_fmap_compose.
  rewrite <- (list_fmap_id (sort_keys _ _)) at 2. by apply list_fmap_ext.
Qed.

Lemma group_by_sum_elem {K : Type} `{EqDecision K} (leb : K -> K -> bool)
  (key : Movement.t -> K) (rows : list Movement.t) (k : K) (v : option float) :
  (k, v) ∈ group_by_sum leb key rows <->
  k ∈ key <$> rows
  /\ v = sql_sum (Movement.amount <$> filter (fun m => key m = k) rows).
Proof.
  unfold group_by_sum. rewrite list_elem_of_fmap. split.
  - intros (k' & [= -> ->] & Hk).
    by rewrite elem_of_sort_keys, elem_of_remove_dups in Hk.
  - intros [Hk ->]. exists k. split; [done|].
    by rewrite elem_of_sort_keys, elem_of_remove_dups.
Qed.

Lemma length_remove_dups_size `{Countable K} (l : list K) :
  length (remove_dups l) = size (list_to_set l : gset K).
Proof.
  rewrite <- (size_list_to_set (C := gset K) (remove_dups l))
    by apply NoDup_remove_dups.
  f_equal. apply set_eq. intros x.
  by rewrite !elem_of_list_to_set, elem_of_remove_dups.
Qed.

(** The rows that the forecast reads, as one filter over the table. *)
Lemma sale_rows_filter (d : db) (bid : Z) :
  sale_rows d bid =
  filter (fun m => Movement.business_id m = bid /\ Movement.tipo m = venta)
         (movements d).
Proof.
  unfold sale_rows, movements_of. rewrite list_filter_filter.
  apply list_filter_iff. intros m. tauto.
Qed.

Lemma sale_totals_length (d : db) (bid : Z) :
  length (sale_totals d bid) = size (sale_dates d bid).
Proof.
  unfold sale_dates, sale_totals. rewrite <- length_remove_dups_size.
  by rewrite <- (length_sort_keys Z.leb), <- group_by_sum_keys, length_fmap.
Qed.

Lemma sale_totals_dates (d : db) (bid day : Z) :
  day ∈ (sale_totals d bid).*1 <-> day ∈ sale_dates d bid.
Proof.
  unfold sale_totals, sale_dates.
  by rewrite group_by_sum_keys, elem_of_sort_keys, elem_of_remove_dups,
    elem_of_list_to_set.
Qed.

Lemma foldl_max_spec (xs : list Z) (x : Z) :
  foldl Z.max x xs ∈ x :: xs /\ forall y, y ∈ x :: xs -> y <= foldl Z.max x xs.
Proof.
  revert x. induction xs as [|z xs IH]; intros x; simpl.
  - split; [apply list_elem_of_here|].
    intros y Hy. apply list_elem_of_singleton in Hy. lia.
  - destruct (IH (Z.max x z)) as [Hin Hle]. split.
    + apply elem_of_cons in Hin as [Heq|Hin].
      * rewrite Heq. destruct (Z.max_spec x z) as [[_ ->]|[_ ->]].
        -- apply list_elem_of_further, list_elem_of_here.
        -- apply list_elem_of_here.
      * by do 2 apply list_elem_of_further.
    + intros y Hy.
      assert (Hm : Z.max x z <= foldl Z.max (Z.max x z) xs)
        by (apply Hle, list_elem_of_here).
      apply elem_of_cons in Hy as [->|Hy]; [lia|].
      apply elem_of_cons in Hy as [->|Hy]; [lia|].
      by apply Hle, list_elem_of_further.
Qed.

Lemma column_max_spec (xs : list Z) :
  xs <> [] -> column_max xs ∈ xs /\ forall y, y ∈ xs -> y <= column_max xs.
Proof.
  destruct xs as [|x xs]; [done|]. intros _. apply foldl_max_spec.
Qed.

Lemma training_dates (d : db) (bid : Z) :
  (training d bid).*1 = (sale_totals d bid).*1.
Proof.
  unfold training. rewrite <- list_fmap_compose. by apply list_fmap_ext.
Qed.

Lemma training_sorted (d : db) (bid : Z) :
  StronglySorted Z.lt (training d bid).*1.
Proof.
  rewrite training_dates. unfold sale_totals. rewrite group_by_sum_keys.
  apply sorted_NoDup_lt.
  - apply sort_keys_sorted; [apply Z_leb_total|apply Z_leb_trans].
  - apply NoDup_sort_keys, NoDup_remove_dups.
Qed.

Lemma training_elem (d : db) (bid day : Z) (y : float) :
  (day, y) ∈ training d bid <->
  day ∈ sale_dates d bid /\ y = frame_total (sql_sum (sale_amounts d bid day)).
Proof.
  unfold training, sale_totals, sale_dates, sale_amounts.
  rewrite list_elem_of_fmap, elem_of_list_to_set. split.
  - intros ([k v] & [= -> ->] & Hr).
    apply group_by_sum_elem in Hr as [Hk ->]. done.
  - intros [Hk ->]. eexists (day, _). split; [reflexivity|].
    by apply group_by_sum_elem.
Qed.

(** ** The category totals *)

Lemma sql_sum_nonempty (xs : list float) :
  xs <> [] -> sql_sum xs = sql_real (py_sum xs).
Proof. by destruct xs. Qed.

Lemma float_of_scalar_sql_real (x : float) :
  float_of_scalar (sql_real x) =
  if PrimFloat.is_nan x then Raise TypeError else Ok x.
Proof. unfold sql_real. by destruct (PrimFloat.is_nan x). Qed.

Lemma traverse_groups {K : Type} (label : K -> string) (amounts : K -> list float)
  (ks : list K) :
  (forall k, k ∈ ks -> amounts k <> []) ->
  traverse (fun r : K * option float =>
              let* v := float_of_scalar (snd r) in Ok (label (fst r), v))
           ((fun k => (k, sql_sum (amounts k))) <$> ks)
  = if decide (Forall (fun k => PrimFloat.is_nan (py_sum (amounts k)) = false) ks)
    then Ok ((fun k => (label k, py_sum (amounts k))) <$> ks)
    else Raise TypeError.
Proof.
  induction ks as [|k ks IH]; intros Hne.
  - reflexivity.
  - rewrite fmap_cons. simpl.
    rewrite sql_sum_nonempty by (apply Hne, list_elem_of_here).
    rewrite float_of_scalar_sql_real.
    destruct (PrimFloat.is_nan (py_sum (amounts k))) eqn:Hnan; simpl.
    + rewrite decide_False; [done|].
      intros HF. apply Forall_cons in HF as [HF _]. congruence.
    + rewrite IH by (intros k' Hk'; by apply Hne, list_elem_of_further).
      destruct (decide (Forall _ ks)) as [HF|HF]; simpl.
      * by rewrite decide_True by (by constructor).
      * rewrite decide_False; [done|].
        intros HF'. by apply Forall_cons in HF' as [_ HF'].
Qed.

Lemma elem_of_categories (d : db) (bid : Z) (c : option string) :
  c ∈ categories d bid <->
  exists m, m ∈ movements_of d bid /\ Movement.category m = c.
Proof.
  unfold categories.
  rewrite elem_of_sort_keys, elem_of_remove_dups, list_elem_of_fmap. split.
  - intros (m & -> & Hm). by exists m.
  - intros (m & Hm & <-). by exists m.
Qed.

Lemma categories_NoDup (d : db) (bid : Z) : NoDup (categories d bid).
Proof. apply NoDup_sort_keys, NoDup_remove_dups. Qed.

Lemma categories_sorted (d : db) (bid : Z) :
  StronglySorted (fun a b => text_leb a b = true) (categories d bid).
Proof. apply sort_keys_sorted; [apply text_leb_total|apply text_leb_trans]. Qed.

Lemma category_label_inj (c1 c2 : option string) :
  c1 <> Some "" -> c1 <> Some sin_categoria ->
  c2 <> Some "" -> c2 <> Some sin_categoria ->
  category_label c1 = category_label c2 -> c1 = c2.
Proof.
  unfold category_label. intros H1 H1' H2 H2'.
  destruct c1 as [s1|], c2 as [s2|]; repeat case_decide; naive_solver.
Qed.

Lemma plot_category_unfold (d : db) (bid : Z) :
  sqlite_integer bid = true ->
  plot_category d (Some bid) =
  (if decide (Forall (fun c => PrimFloat.is_nan (category_total d bid c) = false)
                     (categories d bid))
   then Ok ((fun c => (category_label c, category_total d bid c))
              <$> categories d bid)
   else Raise TypeError).
Proof.
  intros Hbid. unfold plot_category, bind_arg.
  rewrite bind_integer_Ok by done. simpl.
  rewrite movements_of_arg_Some. unfold group_by_sum.
  apply (traverse_groups category_label
           (fun c => Movement.amount <$>
                     filter (fun m => Movement.category m = c)
                            (movements_of d bid))).
  intros c Hc. apply elem_of_categories in Hc as (m & Hm & Hcm).
  intros Hnil. apply fmap_nil_inv in Hnil.
  exact (filter_nil_not_elem_of _ _ m Hnil Hcm Hm).
Qed.

(** C6, as amended. The category chart has one slice per stored category
    value of the business's movements (no category being one such
    value), sorted by that value with no category first. In each slice
    the label (the category itself, or ['sin-categoria'] when it is
    absent or empty) is paired with the sum of the amounts of all
    movements of the business stored with that value, ['venta'] and
    ['gasto'] alike; the request fails when one of these sums is not a
    number. When no movement of the business is stored with the empty
    text or with the text ['sin-categoria'] as category, the labels are
    pairwise distinct, so that the slices are a mapping from labels to
    totals. The business id is one that the store holds, an integer of
    64 bits. *)
Theorem plot_category_slices (d : db) (bid : Z) :
  sqlite_integer bid = true ->
  let own := filter (fun m => Movement.business_id m = bid) (movements d) in
  let total (c : option string) :=
    py_sum (Movement.amount <$>
            filter (fun m => Movement.category m = c) own) in
  let label (c : option string) : string :=
    match c with
    | Some s => if decide (s = "") then "sin-categoria" else s
    | None => "sin-categoria"
    end in
  exists cats : list (option string),
    NoDup cats
    /\ StronglySorted (fun a b => text_leb a b = true) cats
    /\ (forall c, c ∈ cats <-> exists m, m ∈ own /\ Movement.category m = c)
    /\ plot_category d (Some bid) =
         (if decide (Forall (fun c => PrimFloat.is_nan (total c) = false) cats)
          then Ok ((fun c => (label c, total c)) <$> cats)
          else Raise TypeError)
    /\ ((forall c, c ∈ cats -> c <> Some "" /\ c <> Some "sin-categoria") ->
        NoDup (label <$> cats)).
Proof.
  intros Hbid own total label.
  assert (Hlabel : label = category_label) by reflexivity.
  clearbody label. subst label.
  exists (categories d bid).
  split; [apply categories_NoDup|].
  split; [apply categories_sorted|].
  split; [apply elem_of_categories|].
  split; [by apply plot_category_unfold|].
  intros Hplain. apply NoDup_fmap_2_strong; [|apply categories_NoDup].
  intros c1 c2 H1 H2. apply Hplain in H1 as [? ?], H2 as [? ?].
  by apply category_label_inj.
Qed.

(** ** The forecast *)

Lemma traverse_Ok {A B} (f : A -> result B) (g : A -> B) (l : list A) :
  (forall x, x ∈ l -> f x = Ok (g x)) -> traverse f l = Ok (g <$> l).
Proof.
  induction l as [|a l IH]; intros Hl; [done|]. simpl.
  rewrite Hl by apply list_elem_of_here. simpl.
  rewrite IH; [done|]. intros x Hx. by apply Hl, list_elem_of_further.
Qed.

Lemma traverse_inv {A B} (f : A -> result B) (l : list A) (bs : list B) :
  traverse f l = Ok bs -> Forall2 (fun a b => f a = Ok b) l bs.
Proof.
  revert bs. induction l as [|a l IH]; intros bs; simpl.
  - intros [= <-]. constructor.
  - destruct (f a) as [b|] eqn:Ha; simpl; [|done].
    destruct (traverse f l) as [bs'|]; simpl; [|done].
    intros [= <-]. constructor; [done|]. by apply IH.
Qed.

Lemma sale_dates_filter (d : db) (bid : Z) :
  sale_dates d bid =
  list_to_set (Movement.date <$>
               filter (fun m => Movement.business_id m = bid
                                /\ Movement.tipo m = venta) (movements d)).
Proof. unfold sale_dates. by rewrite sale_rows_filter. Qed.

Lemma sale_amounts_filter (d : db) (bid day : Z) :
  sale_amounts d bid day =
  Movement.amount <$>
  filter (fun m => Movement.date m = day)
    (filter (fun m => Movement.business_id m = bid /\ Movement.tipo m = venta)
            (movements d)).
Proof. unfold sale_amounts. by rewrite sale_rows_filter. Qed.

Lemma to_datetime_Ok (day : Z) :
  Timestamp.in_bounds day = true -> Timestamp.to_datetime day = Ok day.
Proof. unfold Timestamp.to_datetime. by intros ->. Qed.

Lemma in_bounds_true (day : Z) :
  Timestamp.in_bounds day = true <->
  Timestamp.min_day <= day <= Timestamp.max_day.
Proof. unfold Timestamp.in_bounds. rewrite andb_true_iff, !Z.leb_le. lia. Qed.

Section ForecastProperties.

Context {LinearRegression : Type}.
Variable fit : list (Z * float) -> result LinearRegression.
Variable predict : LinearRegression -> Z -> float.

(** The forecast of a model: the seven days after [last]. *)
Lemma forecast_days (model : LinearRegression) (last : Z)
  (preds : list (Z * float)) :
  traverse (forecast_day predict model last) (seqZ 1 7) = Ok preds ->
  Timestamp.in_bounds (last + 7) = true
  /\ preds = [ (last + 1, predict model (last + 1));
               (last + 2, predict model (last + 2));
               (last + 3, predict model (last + 3));
               (last + 4, predict model (last + 4));
               (last + 5, predict model (last + 5));
               (last + 6, predict model (last + 6));
               (last + 7, predict model (last + 7)) ].
Proof.
  change (seqZ 1 7) with [1; 2; 3; 4; 5; 6; 7].
  unfold forecast_day, Timestamp.plus_days. cbn [traverse bind].
  repeat match goal with
         | |- context [if Timestamp.in_bounds ?x then _ else _] =>
             destruct (Timestamp.in_bounds x) eqn:?; cbn [bind]; [|discriminate]
         end.
  intros [= <-]. done.
Qed.

Lemma forecast_days_Ok (model : LinearRegression) (last : Z) :
  Timestamp.in_bounds last = true -> Timestamp.in_bounds (last + 7) = true ->
  exists preds,
    traverse (forecast_day predict model last) (seqZ 1 7) = Ok preds
    /\ length preds = 7%nat.
Proof.
  intros Hlo%in_bounds_true Hhi%in_bounds_true.
  eexists. split.
  - apply (traverse_Ok _ (fun i => (last + i, predict model (last + i)))).
    intros i Hi. apply elem_of_seqZ in Hi.
    unfold forecast_day, Timestamp.plus_days.
    rewrite (proj2 (in_bounds_true (last + i))) by lia. done.
  - by rewrite length_fmap, length_seqZ.
Qed.

Lemma predict_sales_400 (d : db) (bid : Z) :
  sqlite_integer bid = true ->
  predict_sales fit predict d bid = Ok (Failure 400 "Not enough data for prediction")
  <-> (size (sale_dates d bid) < 5)%nat.
Proof.
  intros Hbid. unfold predict_sales. rewrite bind_integer_Ok by done.
  cbn [bind]. rewrite sale_totals_length.
  destruct (Z.ltb_spec (Z.of_nat (size (sale_dates d bid))) 5) as [Hlt|Hge].
  - split; [lia|done].
  - split; [|lia]. intros H. exfalso.
    destruct (traverse Timestamp.to_datetime _); cbn [bind] in H; [|done].
    destruct (fit _); cbn [bind] in H; [|done].
    destruct (traverse _ (seqZ 1 7)); cbn [bind] in H; done.
Qed.

Lemma predict_sales_Success (d : db) (bid : Z) (preds : list (Z * float)) :
  predict_sales fit predict d bid = Ok (Success preds) ->
  sqlite_integer bid = true
  /\ (5 <= size (sale_dates d bid))%nat
  /\ exists model,
       fit (training d bid) = Ok model
       /\ traverse (forecast_day predict model
                      (column_max (sale_totals d bid).*1)) (seqZ 1 7)
          = Ok preds.
Proof.
  unfold predict_sales.
  destruct (bind_integer bid) as [b|] eqn:Hb; cbn [bind]; [|done].
  apply bind_integer_inv in Hb as [-> Hbid].
  rewrite sale_totals_length.
  destruct (Z.ltb_spec (Z.of_nat (size (sale_dates d bid))) 5) as [Hlt|Hge];
    [done|].
  destruct (traverse Timestamp.to_datetime _); cbn [bind]; [|done].
  destruct (fit _) as [model|]; cbn [bind]; [|done].
  destruct (traverse _ (seqZ 1 7)) as [ps|] eqn:Hps; cbn [bind]; [|done].
  intros [= <-]. split; [done|]. split; [lia|]. by exists model.
Qed.

(** C4, as amended. For a business id that the store holds (an integer
    of 64 bits), [predict_sales] answers 400, "Not enough data for
    prediction", exactly when the business has ['venta'] movements on
    fewer than 5 distinct dates, and in that case it gives no forecast.
    With at least 5 such dates it gives a forecast, of 7 entries,
    whenever those dates and the 7 days after them lie in the range of
    pandas' timestamps and the estimator accepts the training data. *)
Theorem predict_sales_insufficient_data (d : db) (bid : Z) :
  sqlite_integer bid = true ->
  let sales :=
    filter (fun m => Movement.business_id m = bid /\ Movement.tipo m = venta)
           (movements d) in
  let dates : gset Z := list_to_set (Movement.date <$> sales) in
  (predict_sales fit predict d bid
     = Ok (Failure 400 "Not enough data for prediction")
   <-> (size dates < 5)%nat)
  /\ ((size dates < 5)%nat ->
      forall preds, predict_sales fit predict d bid <> Ok (Success preds))
  /\ ((5 <= size dates)%nat ->
      (forall day, day ∈ dates ->
         Timestamp.min_day <= day /\ day + 7 <= Timestamp.max_day) ->
      (exists model, fit (training d bid) = Ok model) ->
      exists preds,
        predict_sales fit predict d bid = Ok (Success preds)
        /\ length preds = 7%nat).
Proof.
  intros Hbid sales dates.
  assert (Hdates : sale_dates d bid = dates) by apply sale_dates_filter.
  pose proof (predict_sales_400 d bid Hbid) as H400. rewrite Hdates in H400.
  split; [exact H400|]. split.
  - intros Hlt preds Hp. apply H400 in Hlt. congruence.
  - intros Hge Hrange [model Hfit].
    unfold predict_sales. rewrite bind_integer_Ok by done. cbn [bind].
    rewrite sale_totals_length, Hdates.
    destruct (Z.ltb_spec (Z.of_nat (size dates)) 5) as [Hlt|_]; [lia|].
    rewrite (traverse_Ok _ id); cycle 1.
    { intros day Hday. apply sale_totals_dates in Hday. rewrite Hdates in Hday.
      apply to_datetime_Ok, in_bounds_true.
      pose proof (Hrange day Hday). unfold id. lia. }
    cbn [bind]. rewrite Hfit. cbn [bind].
    assert (Hne : (sale_totals d bid).*1 <> []).
    { intros Hnil. apply (f_equal length) in Hnil.
      rewrite length_fmap, sale_totals_length, Hdates in Hnil.
      simpl in Hnil. lia. }
    destruct (column_max_spec _ Hne) as [Hin _].
    apply sale_totals_dates in Hin. rewrite Hdates in Hin.
    pose proof (Hrange _ Hin) as [Hlo Hhi].
    destruct (forecast_days_Ok model (column_max (sale_totals d bid).*1))
      as (preds & -> & Hlen).
    + apply in_bounds_true. lia.
    + apply in_bounds_true. lia.
    + cbn [bind]. by exists preds.
Qed.

End ForecastProperties.

(** ** The write path *)

Section WriteProperties.

Variable fromisoformat : string -> option (Z * Z).
Variable float_of_str : string -> option float.

Lemma post_inv d bid data d' mid :
  api_movements_post fromisoformat float_of_str d bid data = Ok (d', mid) ->
  exists dt tm tipo a,
    accepted fromisoformat float_of_str data dt tm tipo a /\
    d' = add_movement d (stored_movement d bid dt tm tipo a data) /\
    mid = next_id (Movement.id <$> movements d).
Proof.
  unfold api_movements_post, accepted, parse_datetime, sql_real,
    MovementBody.date, MovementBody.time, MovementBody.tipo, MovementBody.text.
  destruct (MovementBody.date_value data) as [[| | | |date_s|]|];
    cbn [subscript bind]; try discriminate.
  destruct (fromisoformat date_s) as [dt|] eqn:E2; cbn [bind]; [|discriminate].
  destruct (MovementBody.time_value data) as [[| | | |time_s|]|];
    cbn [subscript bind]; try discriminate.
  destruct (fromisoformat time_s) as [tm|] eqn:E4; cbn [bind]; [|discriminate].
  destruct (MovementBody.tipo_value data) as [| |tipo]; cbn [bind];
    [discriminate| |].
  - destruct (MovementBody.amount data) as [v|]; cbn [subscript bind];
      [|discriminate].
    destruct (py_float float_of_str v) as [a|]; cbn [bind]; [|discriminate].
    destruct (bind_integer bid); cbn [bind]; discriminate.
  - destruct (MovementBody.amount data) as [v|] eqn:E6; cbn [subscript bind];
      [|discriminate].
    destruct (py_float float_of_str v) as [a|] eqn:Hv; cbn [bind];
      [|discriminate].
    destruct (bind_integer bid) as [b|] eqn:Hb; cbn [bind]; [|discriminate].
    apply bind_integer_inv in Hb as [-> _].
    destruct (PrimFloat.is_nan a) eqn:Hnan; [discriminate|].
    intros [= <- <-].
    exists dt, tm, tipo, a. split; [|split; reflexivity].
    exists date_s, time_s, v. repeat split; assumption.
Qed.

Lemma post_bindable d bid data r :
  api_movements_post fromisoformat float_of_str d bid data = Ok r ->
  sqlite_integer bid = true.
Proof.
  unfold api_movements_post.
  destruct (subscript "date" _); cbn [bind]; [|discriminate].
  destruct (parse_datetime _ _); cbn [bind]; [|discriminate].
  destruct (subscript "time" _); cbn [bind]; [|discriminate].
  destruct (parse_datetime _ _); cbn [bind]; [|discriminate].
  destruct (MovementBody.tipo_value data); cbn [bind]; [discriminate| |];
    (destruct (subscript "amount" _); cbn [bind]; [|discriminate];
     destruct (py_float _ _); cbn [bind]; [|discriminate];
     destruct (bind_integer bid) eqn:Hb; cbn [bind]; [|discriminate];
     by apply bind_integer_inv in Hb as [_ ?]).
Qed.




(** C10. A movement whose kind is neither ['venta'] nor ['gasto'] is
    stored by the write path like any other, and the fiscal report counts
    it toward neither total: every report is the same with and without
    it. So sales plus expenses can be less than the sum of all amounts of
    the month, while profit is still sales minus expenses. *)
Theorem other_kinds_in_neither_total :
  (forall d bid data k d' mid,
      MovementBody.tipo data = Some k -> k <> venta -> k <> gasto ->
      api_movements_post fromisoformat float_of_str d bid data = Ok (d', mid) ->
      (exists m, movements d' = movements d ++ [m] /\ Movement.tipo m = k)
      /\ forall b y mo, fiscal_report d' b y mo = fiscal_report d b y mo)
  /\ (exists d bid y mo r,
        fiscal_report d bid y mo = Ok r
        /\ PrimFloat.ltb
             (PrimFloat.add (sales r) (expenses r))
             (py_sum (Movement.amount <$>
                      fiscal_rows d bid (Calendar.ymd2ord y mo 1)
                        (Calendar.ymd2ord y mo (Calendar.days_in_month y mo))))
           = true
        /\ profit r = PrimFloat.sub (sales r) (expenses r)).
Proof.
  split.
  - intros d bid data k d' mid Hk Hv Hg Hpost.
    apply post_inv in Hpost as (dt & tm & tipo & a & Hacc & -> & _).
    destruct Hacc as (? & ? & ? & _ & _ & _ & _ & Htipo & _).
    rewrite Hk in Htipo. injection Htipo as <-.
    split.
    + eexists. split; [reflexivity|reflexivity].
    + intros b y mo. by apply fiscal_report_add_other.
  - exists db_february, 1, 2024, 2.
    eexists. split; [vm_compute; reflexivity|].
    split; vm_compute; reflexivity.
Qed.

End WriteProperties.

(** ** Every route *)

Lemma appends_one_row_prefix (d d' : db) :
  appends_one_row d d' ->
  users d `prefix_of` users d'
  /\ businesses d `prefix_of` businesses d'
  /\ products d `prefix_of` products d'
  /\ movements d `prefix_of` movements d'.
Proof.
  intros [->|[(u & -> & _)|[(b & -> & _)|[(p & -> & _)|(m & -> & _)]]]];
    simpl; repeat split; done || by apply prefix_app_r.
Qed.

Lemma auth_callback_inv (d d' : db) (sub : string) (email name : option string)
  (id : Z) :
  auth_callback d sub email name = Ok (d', id) ->
  (d' = d /\ exists i u, list_find (fun usr => User.google_id usr = sub) (users d)
                         = Some (i, u) /\ User.id u = id)
  \/ (exists e, email = Some e
               /\ (sub ∉ User.google_id <$> users d)
               /\ (e ∉ User.email <$> users d)
               /\ id = next_id (User.id <$> users d)
               /\ d' = add_user d {| User.id := id; User.google_id := sub;
                                     User.email := e; User.name := name |}).
Proof.
  unfold auth_callback.
  destruct (list_find _ (users d)) as [[i u]|] eqn:Hfind.
  - intros [= <- <-]. left. split; [done|]. by exists i, u.
  - destruct email as [e|]; [|done]. case_decide as He; [done|].
    intros [= <- <-]. right. exists e. split; [done|].
    split; [|done].
    apply list_find_None in Hfind. intros Hin.
    apply list_elem_of_fmap in Hin as (u & -> & Hu).
    by eapply Forall_forall in Hfind.
Qed.

Section RouteProperties.

Context {LinearRegression : Type}.
Variable fit : list (Z * float) -> result LinearRegression.
Variable predict : LinearRegression -> Z -> float.
Variable fromisoformat : string -> option (Z * Z).
Variable float_of_str : string -> option float.

Lemma products_post_inv (d d' : db) (bid pid : Z) (data : ProductBody.t) :
  api_products_post float_of_str d bid data = Ok (d', pid) ->
  exists name cost price,
    ProductBody.name data = Some name
    /\ py_float_or_0 float_of_str (ProductBody.cost data) = Ok cost
    /\ py_float_or_0 float_of_str (ProductBody.price data) = Ok price
    /\ pid = next_id (Product.id <$> products d)
    /\ d' = add_product d
              {| Product.id := pid; Product.business_id := bid;
                 Product.name := name; Product.cost := sql_real cost;
                 Product.price := sql_real price;
                 Product.stock := Some (default 0 (ProductBody.stock data)) |}.
Proof.
  unfold api_products_post.
  destruct (ProductBody.name data) as [name|]; cbn [subscript bind];
    [|discriminate].
  destruct (py_float_or_0 _ (ProductBody.cost data)) as [cost|]; cbn [bind];
    [|discriminate].
  destruct (py_float_or_0 _ (ProductBody.price data)) as [price|]; cbn [bind];
    [|discriminate].
  destruct (bind_integer bid) as [b|] eqn:Hb; cbn [bind]; [|discriminate].
  apply bind_integer_inv in Hb as [-> _].
  destruct (bind_integer (default 0 _)) as [s|] eqn:Hs; cbn [bind];
    [|discriminate].
  apply bind_integer_inv in Hs as [-> _].
  intros [= <- <-]. by exists name, cost, price.
Qed.

Lemma serve_step today user d req :
  appends_one_row d
    (serve fit predict fromisoformat float_of_str today user d req).1.
Proof.
  destruct req as [| |[name|]| |bid|bid data|bid|bid data|bid|bid|bid|mid|bid|bid
                  |bid y mo];
    simpl; try (by left).
  - right. right. left. by eexists.
  - destruct (bind_integer bid); by left.
  - destruct (api_movements_post fromisoformat float_of_str d bid data)
      as [[d' i]|e] eqn:E; simpl; [|by left].
    apply post_inv in E as (dt & tm & tipo & a & _ & -> & _).
    do 4 right. by eexists.
  - destruct (bind_integer bid); by left.
  - destruct (api_products_post float_of_str d bid data)
      as [[d' i]|e] eqn:E; simpl; [|by left].
    apply products_post_inv in E as (name & cost & price & _ & _ & _ & -> & ->).
    do 3 right. left. by eexists.
  - destruct (plot_sales_route d bid today); by left.
  - destruct (plot_category d bid); by left.
  - destruct (predict_sales fit predict d bid) as [[?|? ?]|]; by left.
  - destruct (list_find _ (movements d)) as [[? m]|];
      [|destruct (bind_integer mid); by left].
    destruct (list_find _ (businesses d)) as [[? b]|]; by left.
  - destruct (bind_integer bid); by left.
  - destruct (bind_integer bid); by left.
  - destruct (fiscal_report d bid y mo); by left.
Qed.

Lemma handle_step today uid d req :
  appends_one_row d
    (handle fit predict fromisoformat float_of_str today uid d req).1.1.
Proof.
  destruct req as [| |sub email name| |req]; simpl; try (by left).
  - destruct (current_user d uid); by left.
  - destruct (auth_callback d sub email name) as [[d' id]|e] eqn:E; [|by left].
    simpl. apply auth_callback_inv in E as [[-> _]|(e & _ & ? & ? & -> & ->)];
      [by left|]. right. left. by eexists.
  - destruct (current_user d uid) as [user|]; [|by left].
    pose proof (serve_step today user d req) as H.
    by destruct (serve _ _ _ _ _ _ _ _).
Qed.

Lemma run_preserves (P : db -> db -> Prop) :
  (forall d, P d d) ->
  (forall d1 d2 d3, P d1 d2 -> P d2 d3 -> P d1 d3) ->
  (forall d d', appends_one_row d d' -> P d d') ->
  forall reqs uid d,
    P d (run fit predict fromisoformat float_of_str uid d reqs).
Proof.
  intros Hrefl Htrans Hstep reqs.
  induction reqs as [|[today req] reqs IH]; intros uid d; simpl; [done|].
  pose proof (handle_step today uid d req) as H.
  destruct (handle _ _ _ _ _ _ _ _) as [[d' uid'] r]. simpl in H.
  eapply Htrans; [by apply Hstep|apply IH].
Qed.

(** C9. Movements are immutable once created: the routes of the
    application are the constructors of [request], none of which updates
    or deletes a movement, and after any run of requests the movement
    table is the table before, row for row and field for field, followed
    by the movements appended since. *)
Theorem movements_only_appended (reqs : list (Z * request)) (uid : option Z)
  (d : db) :
  movements d `prefix_of`
  movements (run fit predict fromisoformat float_of_str uid d reqs).
Proof.
  apply (run_preserves (fun d d' => movements d `prefix_of` movements d')).
  - done.
  - intros d1 d2 d3 ? ?. by etrans.
  - intros d1 d2 H. by apply appends_one_row_prefix in H as (_ & _ & _ & H).
Qed.

End RouteProperties.

(** * The theorems at concrete stores *)

(** C1. The sales chart sums every movement of the day, not only the
    sales: on a store whose only movement is an expense of 50 on
    2024-01-01, with no sale at all, the series of [plot_sales] for that
    day holds 50 where the sales of the day are 0. *)
Theorem plot_sales_counts_expenses :
  sale_rows db_expense_only 1 = []
  /\ plot_sales db_expense_only (Some 1) jan_1_2024 !! 29%nat
     = Some (jan_1_2024, 50%float).
Proof. split; reflexivity. Qed.



(** C3. December 9999 is a month of the calendar, and a movement is
    stored in it, yet its report raises instead of summing: the end of
    the month is computed through January 1 of the year 10000. *)
Theorem fiscal_report_december_9999 :
  Calendar.check_date_fields 9999 12 15 = true
  /\ movements db_december_9999
     = [ mov 1 1 (Calendar.ymd2ord 9999 12 15) "venta" 10 None ]
  /\ fiscal_report db_december_9999 1 9999 12 = Raise ValueError.
Proof. repeat split; reflexivity. Qed.

(** C4 fails as stated: a business with sales on the last five days of
    the calendar, five distinct dates, gets no forecast, since pandas
    refuses the dates; and neither does one with sales on five days of
    2024 one of which is of an infinite amount, which the estimator
    refuses. *)
Lemma predict_sales_no_forecast :
  size (list_to_set
          (Movement.date <$>
           filter (fun m => Movement.business_id m = 1 /\ Movement.tipo m = venta)
                  (movements db_calendar_end)) : gset Z) = 5%nat
  /\ predict_sales Instances.fit Instances.predict db_calendar_end 1
     = Raise OutOfBoundsDatetime
  /\ size (list_to_set
             (Movement.date <$>
              filter (fun m => Movement.business_id m = 1 /\ Movement.tipo m = venta)
                     (movements db_infinite_sale)) : gset Z) = 5%nat
  /\ predict_sales Instances.fit Instances.predict db_infinite_sale 1
     = Raise ValueError.
Proof. repeat split; vm_compute; reflexivity. Qed.

(** Business 1 has sales on three days only, among its expenses and
    the sales of business 2: no forecast. With sales on five days it
    has one. *)
Lemma predict_sales_insufficient_data_witness :
  predict_sales Instances.fit Instances.predict db_three_sale_days 1
  = Ok (Failure 400 "Not enough data for prediction")
  /\ exists preds,
       predict_sales Instances.fit Instances.predict db_two_shops 1
       = Ok (Success preds)
       /\ length preds = 7%nat.
Proof.
  split.
  - apply (proj1 (predict_sales_insufficient_data
                    Instances.fit Instances.predict db_three_sale_days 1
                    eq_refl)).
    vm_compute. lia.
  - apply (proj2 (proj2 (predict_sales_insufficient_data
                           Instances.fit Instances.predict db_two_shops 1
                           eq_refl))).
    + vm_compute. lia.
    + intros day Hday. apply elem_of_list_to_set in Hday.
      vm_compute in Hday.
      repeat (apply elem_of_cons in Hday as [->|Hday]);
        [vm_compute; split; discriminate..|by apply elem_of_nil in Hday].
    + eexists. vm_compute. reflexivity.
Defined.

(** C6 fails as stated: with a movement without category and one whose
    category is the text ['sin-categoria'], the label occurs twice, with
    20 and with 5, and nowhere with their sum. *)
Lemma plot_category_label_twice :
  plot_category db_label_clash (Some 1)
  = Ok [ ("sin-categoria", 20%float); ("sin-categoria", 5%float) ].
Proof. reflexivity. Qed.

(** The example of the specification, in a store that also holds a
    movement of another business under "rent": the categories of
    business 1 are no category and "rent", with 20 and 80. *)
Lemma plot_category_slices_witness :
  exists cats : list (option string),
    (forall c, c ∈ cats <-> c = None \/ c = Some "rent")
    /\ StronglySorted (fun a b => text_leb a b = true) cats
    /\ plot_category db_rent (Some 1)
       = Ok [ ("sin-categoria", 20%float); ("rent", 80%float) ].
Proof.
  destruct (plot_category_slices db_rent 1 eq_refl)
    as (cats & _ & Hsorted & Hmem & _ & _).
  exists cats. split; [|split; [exact Hsorted|reflexivity]].
  intros c. rewrite Hmem. split.
  - intros (m & Hm & <-). vm_compute in Hm.
    repeat (apply elem_of_cons in Hm as [->|Hm]); auto.
    by apply elem_of_nil in Hm.
  - intros [-> | ->].
    + exists (mov 3 1 jan_1_2024 "venta" 20 None). split; [|done].
      vm_compute. do 2 apply list_elem_of_further. apply list_elem_of_here.
    + exists (mov 1 1 jan_1_2024 "gasto" 50 (Some "rent")). split; [|done].
      vm_compute. apply list_elem_of_here.
Defined.



(** A movement of kind ['propina'] is stored, and no fiscal report
    changes. *)
Lemma other_kinds_in_neither_total_witness :
  exists d' mid,
    api_movements_post Instances.fromisoformat Instances.float_of_str
      db_february 1 body_unvalidated = Ok (d', mid)
    /\ forall b y mo, fiscal_report d' b y mo = fiscal_report db_february b y mo.
Proof.
  eexists _, _. split; [reflexivity|].
  refine (proj2 (proj1 (other_kinds_in_neither_total
            Instances.fromisoformat Instances.float_of_str)
            db_february 1 body_unvalidated "propina" _ _ _ _ _ _));
    [reflexivity|discriminate|discriminate|reflexivity].
Defined.

(** * Further properties of the routes *)

(** ** The sales chart *)

Lemma filter_none {A} (P : A -> Prop) `{!forall x, Decision (P x)} (l : list A) :
  (forall x, x ∈ l -> ~ P x) -> filter P l = [].
Proof.
  induction l as [|x l IH]; intros Hl; [done|].
  rewrite filter_cons, decide_False by (apply Hl, list_elem_of_here).
  apply IH. intros y Hy. by apply Hl, list_elem_of_further.
Qed.

Lemma movements_of_arg_add (d : db) (m : Movement.t) (bid : option Z) :
  movements_of_arg (add_movement d m) bid =
  movements_of_arg d bid
  ++ (if decide (Some (Movement.business_id m) = bid) then [m] else []).
Proof.
  unfold movements_of_arg, add_movement. simpl. by rewrite filter_app.
Qed.

Lemma day_amounts_add_arg (d : db) (m : Movement.t) (bid : option Z) (day : Z) :
  day_amounts (add_movement d m) bid day =
  day_amounts d bid day
  ++ (if decide (Some (Movement.business_id m) = bid /\ Movement.date m = day)
      then [Movement.amount m] else []).
Proof.
  unfold day_amounts. rewrite movements_of_arg_add, filter_app, fmap_app.
  f_equal.
  destruct (decide (Some (Movement.business_id m) = bid)) as [Hb|Hb].
  - rewrite (filter_cons _ m []), filter_nil.
    destruct (decide (Movement.date m = day)) as [Hd|Hd].
    + by rewrite decide_True.
    + by rewrite decide_False by tauto.
  - rewrite filter_nil. by rewrite decide_False by tauto.
Qed.

Lemma float_or_0_sql_sum_not_nan (xs : list float) :
  PrimFloat.is_nan (float_or_0 (sql_sum xs)) = false.
Proof.
  unfold sql_sum, sql_real. destruct xs as [|x xs]; [reflexivity|].
  destruct (PrimFloat.is_nan (fold_left PrimFloat.add (x :: xs) 0%float)) eqn:E;
    [reflexivity|].
  simpl. destruct (PrimFloat.is_zero _); [reflexivity|]. exact E.
Qed.

(** X1. On a day whose last 30 days lie in the range of pandas'
    timestamps, the route of the sales chart reaches [ax.plot] with 30
    points, for the 30 consecutive days that end today, in order,
    whenever the request carries no usable [bid] or one of 64 bits; for
    a business without movements every total is 0. With a [bid] beyond
    64 bits the route raises an [OverflowError]. *)
Theorem plot_sales_window (d : db) (bid : option Z) (today : Z) :
  Timestamp.min_day <= today - 29 -> today <= Timestamp.max_day ->
  ((forall z, bid = Some z -> sqlite_integer z = true) ->
   exists series,
     plot_sales_route d bid today = Ok series
     /\ length series = 30%nat
     /\ series.*1 = seqZ (today - 29) 30
     /\ ((forall m, m ∈ movements d -> Some (Movement.business_id m) <> bid) ->
         Forall (fun p => p.2 = 0%float) series))
  /\ (forall z, bid = Some z -> sqlite_integer z = false ->
        plot_sales_route d bid today = Raise OverflowError).
Proof.
  intros Hlo Hhi.
  assert (Hroute : plot_sales_route d bid today =
                   let* _ := bind_arg bid in Ok (plot_sales d bid today)).
  { unfold plot_sales_route, Calendar.minus_days, Calendar.min_ordinal.
    destruct (Z.ltb_spec (today - 29) 1) as [Hlt|_].
    - unfold Timestamp.min_day in Hlo. lia.
    - rewrite !to_datetime_Ok; [done|apply in_bounds_true..]; lia. }
  rewrite Hroute. split.
  - intros Hbid. exists (plot_sales d bid today). split.
    { destruct bid as [z|]; [|done]. simpl.
      by rewrite bind_integer_Ok by (by apply Hbid). }
    split; [|split; [apply plot_sales_dates|]].
    + rewrite <- (length_fmap fst), plot_sales_dates, length_seqZ. lia.
    + intros Hnone. unfold plot_sales, daily_totals.
      apply Forall_fmap, Forall_forall. intros day _. simpl.
      unfold day_sum, day_amounts, movements_of_arg.
      rewrite (filter_none _ (movements d)); [done|].
      intros m Hm. by apply Hnone.
  - intros z -> Hz. simpl. by rewrite bind_integer_Raise.
Qed.

(** X2. A movement of another business, or one dated after today or more
    than 29 days ago, changes nothing in the series of the sales
    chart. *)
Theorem plot_sales_frame (d : db) (m : Movement.t) (bid : option Z) (today : Z) :
  Some (Movement.business_id m) <> bid
  \/ Movement.date m < today - 29 \/ today < Movement.date m ->
  plot_sales (add_movement d m) bid today = plot_sales d bid today.
Proof.
  intros Hout. unfold plot_sales, daily_totals, Calendar.date_range,
    Calendar.minus_days.
  apply list_fmap_ext. intros i day Hday.
  apply lookup_seqZ in Hday as [-> Hi].
  unfold day_sum. rewrite day_amounts_add_arg.
  rewrite decide_False; [by rewrite app_nil_r|].
  intros [Hb Hd]. destruct Hout as [?|[?|?]]; [done|lia|lia].
Qed.

(** X3. No total of the sales chart is NaN, whatever amounts are stored
    (infinite ones of both signs included): a sum that is not a number
    comes back from the store as NULL and is drawn as 0. *)
Theorem plot_sales_never_nan (d : db) (bid : option Z) (today : Z) :
  Forall (fun p => PrimFloat.is_nan p.2 = false) (plot_sales d bid today).
Proof.
  unfold plot_sales, daily_totals. apply Forall_fmap, Forall_forall.
  intros day _. simpl. apply float_or_0_sql_sum_not_nan.
Qed.

(** ** The movement handlers *)

Section WriteExtras.

Variable fromisoformat : string -> option (Z * Z).
Variable float_of_str : string -> option float.



End WriteExtras.

(** ** The login *)

Lemma auth_callback_find (d d' : db) (sub : string)
  (email name : option string) (id : Z) :
  auth_callback d sub email name = Ok (d', id) ->
  exists i u, list_find (fun usr => User.google_id usr = sub) (users d')
              = Some (i, u) /\ User.id u = id.
Proof.
  intros H. apply auth_callback_inv in H as [[-> H]|H]; [done|].
  destruct H as (e & -> & Hsub & He & Hid & ->).
  exists (length (users d)),
    {| User.id := id; User.google_id := sub; User.email := e;
       User.name := name |}.
  split; [|reflexivity]. simpl.
  apply list_find_Some. split; [by apply list_lookup_middle|].
  split; [done|]. intros j y Hj Hlt.
  rewrite lookup_app_l in Hj by done. intros Hy. apply Hsub.
  apply list_elem_of_fmap. exists y. split; [done|].
  by eapply list_elem_of_lookup_2.
Qed.


Lemma keyed_snoc (ids : list Z) : keyed ids -> keyed (ids ++ [next_id ids]).
Proof.
  intros [Hnd Hpos]. split.
  - apply NoDup_app. split; [done|]. split; [|apply NoDup_singleton].
    intros i Hi Hi'. apply list_elem_of_singleton in Hi' as ->.
    by apply next_id_fresh in Hi.
  - apply Forall_app. split; [done|]. apply Forall_singleton.
    unfold next_id. clear. induction ids as [|j ids IH]; simpl; lia.
Qed.

Lemma NoDup_snoc_fresh {A} (l : list A) (x : A) :
  NoDup l -> x ∉ l -> NoDup (l ++ [x]).
Proof.
  intros Hnd Hx. apply NoDup_app. split; [done|].
  split; [|apply NoDup_singleton].
  intros y Hy Hy'. apply list_elem_of_singleton in Hy' as ->. done.
Qed.

Lemma appends_one_row_consistent (d d' : db) :
  appends_one_row d d' -> consistent d -> consistent d'.
Proof.
  intros Hstep (Hu & Hg & He & Hb & Hp & Hm).
  destruct Hstep as [->|[(u & -> & Hid & Hgu & Heu)
                        |[(b & -> & Hid)|[(p & -> & Hid)|(m & -> & Hid)]]]];
    unfold consistent; simpl; rewrite ?fmap_app; simpl; rewrite ?Hid.
  - done.
  - split; [by apply keyed_snoc|]. split; [by apply NoDup_snoc_fresh|].
    split; [by apply NoDup_snoc_fresh|]. done.
  - repeat (split; [done|]). split; [by apply keyed_snoc|]. done.
  - repeat (split; [done|]). split; [by apply keyed_snoc|]. done.
  - repeat (split; [done|]). by apply keyed_snoc.
Qed.

(** X7. After a login on a store that keeps the schema's constraints, the
    session's user id resolves: [current_user] is a user of the store
    with the [google_id] that logged in. *)
Theorem auth_callback_current_user (d d' : db) (sub : string)
  (email name : option string) (id : Z) :
  consistent d ->
  auth_callback d sub email name = Ok (d', id) ->
  exists u, current_user d' (Some id) = Some u
            /\ u ∈ users d' /\ User.id u = id /\ User.google_id u = sub.
Proof.
  intros Hc H.
  assert (Hc' : consistent d').
  { apply (appends_one_row_consistent d); [|done].
    apply auth_callback_inv in H as [[-> _]|(e & -> & ? & ? & -> & ->)];
      [by left|]. right. left. eexists. done. }
  apply auth_callback_find in H as (i0 & u & Hfind0 & Hid).
  apply list_find_Some in Hfind0 as (Hu & Hsub & _).
  apply list_elem_of_lookup_2 in Hu.
  destruct Hc' as ([Hnd Hpos] & _).
  exists u. split; [|done]. unfold current_user.
  assert (Hne : (id =? 0) = false).
  { apply Z.eqb_neq. intros ->.
    assert (1 <= User.id u) as Hge; [|lia].
    eapply Forall_forall in Hpos; [exact Hpos|]. by apply list_elem_of_fmap_2. }
  rewrite Hne.
  destruct (list_find_elem_of (fun usr => User.id usr = id) (users d') u Hu Hid)
    as [[i v] Hfind].
  rewrite Hfind. simpl. f_equal.
  apply list_find_Some in Hfind as (Hi & Hv & _).
  apply list_elem_of_lookup in Hu as [j Hj].
  assert (i = j); [|congruence].
  eapply (NoDup_lookup _ i j (User.id v)); [exact Hnd| |].
  - by rewrite list_lookup_fmap, Hi.
  - rewrite list_lookup_fmap, Hj. simpl. congruence.
Qed.

(** ** Every route, one request at a time *)

Section RouteExtras.

Context {LinearRegression : Type}.
Variable fit : list (Z * float) -> result LinearRegression.
Variable predict : LinearRegression -> Z -> float.
Variable fromisoformat : string -> option (Z * Z).
Variable float_of_str : string -> option float.

(** X8. The constraints of the schema are kept by every run of requests:
    from a store whose primary keys are distinct and positive and whose
    users have distinct [google_id]s and emails, any requests lead to
    such a store. *)
Theorem run_keeps_constraints (reqs : list (Z * request)) (uid : option Z)
  (d : db) :
  consistent d ->
  consistent (run fit predict fromisoformat float_of_str uid d reqs).
Proof.
  apply (run_preserves fit predict fromisoformat float_of_str
           (fun d d' => consistent d -> consistent d')).
  - done.
  - intros d1 d2 d3 H12 H23 H1. by apply H23, H12.
  - apply appends_one_row_consistent.
Qed.

(** X9. No request writes more than one row: after any run of requests the
    store has at most as many rows more, over its four tables, as there
    were requests. *)
Theorem run_rows_bound (reqs : list (Z * request)) (uid : option Z) (d : db) :
  (rows (run fit predict fromisoformat float_of_str uid d reqs)
   <= rows d + length reqs)%nat.
Proof.
  revert uid d. induction reqs as [|[today req] reqs IH]; intros uid d; simpl.
  - lia.
  - pose proof (handle_step fit predict fromisoformat float_of_str
                  today uid d req) as H.
    destruct (handle _ _ _ _ _ _ _ _) as [[d' uid'] r]. simpl in H.
    specialize (IH uid' d').
    assert (rows d' <= S (rows d))%nat; [|lia].
    clear IH. unfold rows.
    destruct H as [->|[(u & -> & _)|[(b & -> & _)|[(p & -> & _)|(m & -> & _)]]]];
      simpl; rewrite ?length_app; simpl; lia.
Qed.

(** X10. Users, businesses and products are never updated or deleted either:
    after any run of requests each of these tables is the table before,
    row for row, followed by the rows appended since. *)
Theorem tables_only_appended (reqs : list (Z * request)) (uid : option Z)
  (d : db) :
  users d `prefix_of`
    users (run fit predict fromisoformat float_of_str uid d reqs)
  /\ businesses d `prefix_of`
       businesses (run fit predict fromisoformat float_of_str uid d reqs)
  /\ products d `prefix_of`
       products (run fit predict fromisoformat float_of_str uid d reqs).
Proof.
  cut (users d `prefix_of`
         users (run fit predict fromisoformat float_of_str uid d reqs)
       /\ businesses d `prefix_of`
            businesses (run fit predict fromisoformat float_of_str uid d reqs)
       /\ products d `prefix_of`
            products (run fit predict fromisoformat float_of_str uid d reqs)
       /\ movements d `prefix_of`
            movements (run fit predict fromisoformat float_of_str uid d reqs)).
  { tauto. }
  apply (run_preserves fit predict fromisoformat float_of_str
           (fun d d' => users d `prefix_of` users d'
                        /\ businesses d `prefix_of` businesses d'
                        /\ products d `prefix_of` products d'
                        /\ movements d `prefix_of` movements d')).
  - done.
  - intros d1 d2 d3 (?&?&?&?) (?&?&?&?). repeat split; by etrans.
  - apply appends_one_row_prefix.
Qed.

Lemma handle_anonymous today uid d req :
  current_user d uid = None -> is_callback req = false ->
  exists uid' r,
    handle fit predict fromisoformat float_of_str today uid d req = (d, uid', r)
    /\ current_user d uid' = None.
Proof.
  intros Hu Hreq.
  destruct req as [| |sub email name| |req]; simpl; try discriminate;
    rewrite ?Hu; by eexists _, _.
Qed.

(** X11. Without a login nothing is written: in a session whose user id
    resolves to no user (none, zero, or the id of no stored user), a run
    of requests that holds no [auth_callback] leaves the store as it
    is. *)
Theorem anonymous_run_inert (reqs : list (Z * request)) (uid : option Z)
  (d : db) :
  current_user d uid = None ->
  Forall (fun r => is_callback r.2 = false) reqs ->
  run fit predict fromisoformat float_of_str uid d reqs = d.
Proof.
  revert uid. induction reqs as [|[today req] reqs IH]; intros uid Hu Hreqs;
    simpl; [done|].
  apply Forall_cons in Hreqs as [Hreq Hreqs].
  destruct (handle_anonymous today uid d req Hu Hreq) as (uid' & r & -> & Hu').
  by apply IH.
Qed.

(** X12. No route checks who owns a business: apart from the dashboard, the
    creation of a business and the list of one's businesses, every route
    behind the login answers and writes the same for every logged-in
    user, whatever business id the request names. *)
Theorem serve_ignores_user (today : Z) (u1 u2 : User.t) (d : db)
  (req : member_request) :
  reads_user req = false ->
  serve fit predict fromisoformat float_of_str today u1 d req
  = serve fit predict fromisoformat float_of_str today u2 d req.
Proof. destruct req as [| |[?|]| | | | | | | | | | | |]; done. Qed.

End RouteExtras.

(** ** The fiscal report, request by request *)

Lemma py_sum_snoc (xs : list float) (a : float) :
  py_sum (xs ++ [a]) = PrimFloat.add (py_sum xs) a.
Proof. unfold py_sum. by rewrite fold_left_app. Qed.

(** X13. What the fiscal report answers to the year and the month of the
    URL. A year or a month that does not fit a C [int] fails with an
    [OverflowError]; one that fits but lies outside the years 1 to 9999
    and the months 1 to 12 fails with a [ValueError]. For every other
    year and month except December 9999, a business id of 64 bits gets a
    report, which carries that year and month and whose profit is sales
    minus expenses, and a business id beyond 64 bits fails with an
    [OverflowError]. None of this depends on what the store holds. *)
Theorem fiscal_report_defined (d : db) (bid y mo : Z) :
  (Calendar.c_int y = false \/ Calendar.c_int mo = false ->
   fiscal_report d bid y mo = Raise OverflowError)
  /\ (Calendar.c_int y = true -> Calendar.c_int mo = true ->
      ~ (1 <= y <= 9999 /\ 1 <= mo <= 12) ->
      fiscal_report d bid y mo = Raise ValueError)
  /\ (1 <= y <= 9999 -> 1 <= mo <= 12 -> ~ (y = 9999 /\ mo = 12) ->
      (sqlite_integer bid = true ->
       exists r, fiscal_report d bid y mo = Ok r
                 /\ year r = y /\ month r = mo
                 /\ profit r = PrimFloat.sub (sales r) (expenses r))
      /\ (sqlite_integer bid = false ->
          fiscal_report d bid y mo = Raise OverflowError)).
Proof.
  split; [|split].
  - intros Hc. unfold fiscal_report. rewrite new_date_first.
    by destruct Hc as [-> | ->]; rewrite ?andb_false_r.
  - intros Hy Hm Hout. unfold fiscal_report. rewrite new_date_first, Hy, Hm.
    simpl. by rewrite decide_False.
  - intros Hy Hm Hne. rewrite fiscal_report_Ok by done. split.
    + intros ->. by eexists.
    + by intros ->.
Qed.

(** X14. A movement enters the fiscal report of its own business, year and
    month only: appending a movement dated on a day of one month leaves
    the reports of every other business and of every other year or
    month as they were. *)
Theorem fiscal_report_frame (d : db) (m : Movement.t) (bid y mo y' m' dd : Z) :
  Calendar.check_date_fields y' m' dd = true ->
  Movement.date m = Calendar.ymd2ord y' m' dd ->
  Movement.business_id m <> bid \/ y' <> y \/ m' <> mo ->
  fiscal_report (add_movement d m) bid y mo = fiscal_report d bid y mo.
Proof.
  intros Hvalid Hdate Hother.
  destruct (decide (1 <= y <= 9999 /\ 1 <= mo <= 12 /\ ~ (y = 9999 /\ mo = 12)))
    as [(Hy & Hm & Hne)|Hinv]; [|by apply fiscal_report_no_report].
  rewrite !fiscal_report_Ok by done. unfold report_of.
  replace (fiscal_rows (add_movement d m) bid (Calendar.ymd2ord y mo 1)
             (Calendar.ymd2ord y mo (Calendar.days_in_month y mo)))
    with (fiscal_rows d bid (Calendar.ymd2ord y mo 1)
            (Calendar.ymd2ord y mo (Calendar.days_in_month y mo))); [done|].
  unfold fiscal_rows, add_movement. simpl. rewrite filter_app.
  rewrite (filter_cons _ m []), filter_nil, decide_False; [by rewrite app_nil_r|].
  intros (Hb & Hlo & Hhi). rewrite Hdate in Hlo, Hhi.
  pose proof (proj1 (ordinal_in_month y mo y' m' dd Hm Hvalid) (conj Hlo Hhi)).
  tauto.
Qed.

(** X15. Recording and reporting compose: appending a movement of a business
    dated on a day of a reported month adds its amount, in binary64
    arithmetic, to the sales of that report when its kind is ['venta']
    and to the expenses when it is ['gasto'], leaves the other total as
    it was, and the profit is again the difference of the two. *)
Theorem fiscal_report_after_movement (d : db) (m : Movement.t) (bid y mo dd : Z)
  (r : fiscal) :
  fiscal_report d bid y mo = Ok r ->
  Movement.business_id m = bid ->
  1 <= dd <= Calendar.days_in_month y mo ->
  Movement.date m = Calendar.ymd2ord y mo dd ->
  (Movement.tipo m = venta ->
   fiscal_report (add_movement d m) bid y mo
   = Ok {| year := y; month := mo;
           sales := PrimFloat.add (sales r) (Movement.amount m);
           expenses := expenses r;
           profit := PrimFloat.sub (PrimFloat.add (sales r) (Movement.amount m))
                                   (expenses r) |})
  /\ (Movement.tipo m = gasto ->
      fiscal_report (add_movement d m) bid y mo
      = Ok {| year := y; month := mo;
              sales := sales r;
              expenses := PrimFloat.add (expenses r) (Movement.amount m);
              profit := PrimFloat.sub (sales r)
                          (PrimFloat.add (expenses r) (Movement.amount m)) |}).
Proof.
  intros Hr Hb Hdd Hdate.
  apply fiscal_report_Ok_inv in Hr as (Hy & Hm & Hne & Hbid & ->).
  unfold report_of. simpl.
  assert (Hrows : fiscal_rows (add_movement d m) bid (Calendar.ymd2ord y mo 1)
                    (Calendar.ymd2ord y mo (Calendar.days_in_month y mo))
                  = fiscal_rows d bid (Calendar.ymd2ord y mo 1)
                      (Calendar.ymd2ord y mo (Calendar.days_in_month y mo))
                    ++ [m]).
  { unfold fiscal_rows, add_movement. simpl. rewrite filter_app. f_equal.
    rewrite (filter_cons _ m []), filter_nil, decide_True; [done|].
    rewrite Hdate. unfold Calendar.ymd2ord. lia. }
  split; intros Hk; rewrite fiscal_report_Ok, Hbid by done;
    unfold report_of; rewrite Hrows;
    rewrite !filter_app, !(filter_cons _ m []), !filter_nil.
  - rewrite decide_True by done.
    rewrite decide_False by (rewrite Hk; discriminate).
    rewrite app_nil_r, fmap_app.
    change (Movement.amount <$> [m]) with [Movement.amount m].
    by rewrite py_sum_snoc.
  - rewrite decide_False by (rewrite Hk; discriminate).
    rewrite decide_True by done.
    rewrite app_nil_r, fmap_app.
    change (Movement.amount <$> [m]) with [Movement.amount m].
    by rewrite py_sum_snoc.
Qed.

(** X25. For every business id of 64 bits, every year from 1 to 9999 and
    every month from 1 to 12 other than December 9999, the fiscal report
    is made of exactly the business's movements dated from the first to
    the last day of that month (a valid date lies in that range exactly
    when it is a date of that year and month): its sales are the sum of
    their ['venta'] amounts, its expenses the sum of their ['gasto']
    amounts, and its profit is sales minus expenses. *)
Theorem fiscal_report_month (d : db) (bid y m : Z) :
  sqlite_integer bid = true ->
  1 <= y <= 9999 -> 1 <= m <= 12 -> ~ (y = 9999 /\ m = 12) ->
  let first := Calendar.ymd2ord y m 1 in
  let last := Calendar.ymd2ord y m (Calendar.days_in_month y m) in
  let rows :=
    filter (fun r => Movement.business_id r = bid
                     /\ first <= Movement.date r /\ Movement.date r <= last)
           (movements d) in
  let of_kind k :=
    py_sum (Movement.amount <$> filter (fun r => Movement.tipo r = k) rows) in
  fiscal_report d bid y m =
    Ok {| year := y; month := m;
          sales := of_kind venta; expenses := of_kind gasto;
          profit := PrimFloat.sub (of_kind venta) (of_kind gasto) |}
  /\ (forall y' m' d',
        Calendar.check_date_fields y' m' d' = true ->
        first <= Calendar.ymd2ord y' m' d' <= last <-> y' = y /\ m' = m).
Proof.
  intros Hbid Hy Hm Hne. split.
  - by rewrite fiscal_report_Ok, Hbid.
  - intros y' m' d' Hv. by apply ordinal_in_month.
Qed.

(** ** The category chart, slice by slice *)

Lemma category_label_nonempty (c : option string) : category_label c <> "".
Proof.
  unfold category_label. destruct c as [s|]; [|done]. by case_decide.
Qed.

Lemma plot_category_bindable (d : db) (bid : Z) (slices : list (string * float)) :
  plot_category d (Some bid) = Ok slices -> sqlite_integer bid = true.
Proof.
  unfold plot_category, bind_arg, bind_integer.
  by destruct (sqlite_integer bid).
Qed.

(** X16. The labels and values that the category chart hands to
    [ax.pie], when it gets that far: as many slices as the business has
    distinct stored categories (no category being one), none when and
    only when the business has no movement, no label empty and no value
    NaN. A request without a usable [bid] hands over no slice. *)
Theorem plot_category_shape (d : db) (bid : Z) (slices : list (string * float)) :
  plot_category d (Some bid) = Ok slices ->
  let own := filter (fun m => Movement.business_id m = bid) (movements d) in
  length slices
    = size (list_to_set (Movement.category <$> own) : gset (option string))
  /\ Forall (fun s => s.1 <> "" /\ PrimFloat.is_nan s.2 = false) slices
  /\ (slices = [] <-> own = [])
  /\ plot_category d None = Ok [].
Proof.
  intros Hs own.
  pose proof (plot_category_bindable d bid slices Hs) as Hbid.
  rewrite plot_category_unfold in Hs by done.
  case_decide as HF; [|done]. injection Hs as <-.
  assert (Hlen : length (categories d bid)
                 = size (list_to_set (Movement.category <$> own)
                           : gset (option string))).
  { unfold categories. by rewrite length_sort_keys, length_remove_dups_size. }
  split; [by rewrite length_fmap|]. split; [|split].
  - apply Forall_fmap. eapply Forall_impl; [exact HF|].
    intros c Hc. simpl. split; [apply category_label_nonempty|done].
  - split.
    + intros Hnil. apply fmap_nil_inv in Hnil.
      destruct own as [|m own'] eqn:Hown; [done|]. exfalso.
      assert (Hin : Movement.category m ∈ categories d bid).
      { apply elem_of_categories. exists m. split; [|done].
        unfold movements_of. fold own. rewrite Hown. apply list_elem_of_here. }
      rewrite Hnil in Hin. by apply elem_of_nil in Hin.
    + intros Hnil. unfold categories, movements_of. fold own. by rewrite Hnil.
  - unfold plot_category, movements_of_arg. simpl.
    rewrite (filter_none _ (movements d)); [done|]. by intros m _.
Qed.

(** ** The forecast, the tickets, the businesses and the products *)

Lemma list_find_snoc {A} (P : A -> Prop) `{!forall x, Decision (P x)}
  (l : list A) (x : A) :
  (forall y, y ∈ l -> ~ P y) -> P x ->
  list_find P (l ++ [x]) = Some (length l, x).
Proof.
  intros Hl Hx. apply list_find_Some.
  split; [by apply list_lookup_middle|]. split; [done|].
  intros j y Hj Hlt. rewrite lookup_app_l in Hj by done.
  by eapply Hl, list_elem_of_lookup_2.
Qed.

Lemma sale_rows_add (d : db) (m : Movement.t) (bid : Z) :
  sale_rows (add_movement d m) bid =
  sale_rows d bid
  ++ (if decide (Movement.business_id m = bid /\ Movement.tipo m = venta)
      then [m] else []).
Proof.
  unfold sale_rows. rewrite movements_of_add, filter_app. f_equal.
  destruct (decide (Movement.business_id m = bid)) as [Hb|Hb].
  - rewrite (filter_cons _ m []), filter_nil.
    destruct (decide (Movement.tipo m = venta)) as [Hk|Hk].
    + by rewrite decide_True.
    + by rewrite decide_False by tauto.
  - rewrite filter_nil. by rewrite decide_False by tauto.
Qed.

Lemma sale_dates_mono (d d' : db) (bid : Z) :
  movements d `prefix_of` movements d' ->
  sale_dates d bid ⊆ sale_dates d' bid.
Proof.
  intros [k Hk]. unfold sale_dates, sale_rows, movements_of.
  rewrite Hk, !filter_app, fmap_app, list_to_set_app_L.
  apply union_subseteq_l.
Qed.

Lemma foldr_max_base (ids : list Z) (b : Z) :
  0 <= b -> foldr Z.max b ids = Z.max b (foldr Z.max 0 ids).
Proof. intros Hb. induction ids as [|i ids IH]; simpl; lia. Qed.

Lemma next_id_snoc (ids : list Z) :
  next_id (ids ++ [next_id ids]) = next_id ids + 1.
Proof.
  unfold next_id. rewrite foldr_app. simpl.
  assert (0 <= foldr Z.max 0 ids) by (induction ids; simpl; lia).
  rewrite foldr_max_base by lia. lia.
Qed.

Section ServiceExtras.

Context {LinearRegression : Type}.
Variable fit : list (Z * float) -> result LinearRegression.
Variable predict : LinearRegression -> Z -> float.
Variable fromisoformat : string -> option (Z * Z).
Variable float_of_str : string -> option float.

(** X17. The forecast of a business reads its ['venta'] movements and
    nothing else: appending an expense, a movement of any other kind or
    a movement of another business leaves the answer of [predict_sales]
    as it was, be it a forecast or the 400. *)
Theorem predict_sales_frame (d : db) (m : Movement.t) (bid : Z) :
  Movement.business_id m <> bid \/ Movement.tipo m <> venta ->
  predict_sales fit predict (add_movement d m) bid
  = predict_sales fit predict d bid.
Proof.
  intros Hother. unfold predict_sales, training, sale_totals.
  destruct (bind_integer bid) as [b|] eqn:Hb; cbn [bind]; [|done].
  apply bind_integer_inv in Hb as [-> _].
  rewrite sale_rows_add, decide_False by tauto. by rewrite app_nil_r.
Qed.

(** X18. The sale dates of a business are never lost: after any run of
    requests, of any session, the business has ['venta'] movements on
    every date on which it had one before. So once it has them on 5
    distinct dates, [predict_sales] never again answers the 400, "Not
    enough data for prediction". *)
Theorem forecast_stays_available (reqs : list (Z * request)) (uid : option Z)
  (d : db) (bid : Z) :
  let dates (s : db) : gset Z :=
    list_to_set
      (Movement.date <$>
       filter (fun m => Movement.business_id m = bid /\ Movement.tipo m = venta)
              (movements s)) in
  let d' := run fit predict fromisoformat float_of_str uid d reqs in
  dates d ⊆ dates d'
  /\ ((5 <= size (dates d))%nat ->
      (5 <= size (dates d'))%nat
      /\ predict_sales fit predict d' bid
         <> Ok (Failure 400 "Not enough data for prediction")).
Proof.
  intros dates d'.
  assert (Hprefix : movements d `prefix_of` movements d').
  { apply (run_preserves fit predict fromisoformat float_of_str
             (fun d d' => movements d `prefix_of` movements d')).
    - done.
    - intros d1 d2 d3 ? ?. by etrans.
    - intros d1 d2 H. by apply appends_one_row_prefix in H as (_ & _ & _ & H). }
  apply (sale_dates_mono _ _ bid) in Hprefix.
  rewrite !sale_dates_filter in Hprefix. fold (dates d) (dates d') in Hprefix.
  split; [exact Hprefix|]. intros Hge.
  apply subseteq_size in Hprefix. split; [lia|].
  destruct (sqlite_integer bid) eqn:Hbid.
  - intros H400. apply predict_sales_400 in H400; [|done].
    rewrite sale_dates_filter in H400. fold (dates d') in H400. lia.
  - unfold predict_sales. by rewrite bind_integer_Raise.
Qed.

(** X24. What [predict_sales] trains on and what it answers. When it
    answers a forecast, the estimator was fitted on one training pair
    per date on which the business has a ['venta'] movement, in
    ascending order of the dates: the date's ordinal with the sum of
    that day's ['venta'] amounts of that business, and no pair for any
    other day. The forecast has exactly 7 entries, for the 7
    consecutive days that follow the latest of those dates, in order,
    each with the value that the fitted model predicts at that day's
    ordinal. *)
Theorem predict_sales_training (d : db) (bid : Z) (preds : list (Z * float)) :
  predict_sales fit predict d bid = Ok (Success preds) ->
  let sales :=
    filter (fun m => Movement.business_id m = bid /\ Movement.tipo m = venta)
           (movements d) in
  exists model last,
    StronglySorted Z.lt (training d bid).*1
    /\ (forall day y,
          (day, y) ∈ training d bid <->
          day ∈ Movement.date <$> sales
          /\ y = frame_total
                   (sql_sum (Movement.amount <$>
                             filter (fun m => Movement.date m = day) sales)))
    /\ fit (training d bid) = Ok model
    /\ last ∈ Movement.date <$> sales
    /\ (forall day, day ∈ Movement.date <$> sales -> day <= last)
    /\ preds = [ (last + 1, predict model (last + 1));
                 (last + 2, predict model (last + 2));
                 (last + 3, predict model (last + 3));
                 (last + 4, predict model (last + 4));
                 (last + 5, predict model (last + 5));
                 (last + 6, predict model (last + 6));
                 (last + 7, predict model (last + 7)) ].
Proof.
  intros Hp sales.
  apply predict_sales_Success in Hp as (_ & Hge & model & Hfit & Hpreds).
  apply forecast_days in Hpreds as [_ ->].
  assert (Hset : forall day, day ∈ sale_dates d bid <-> day ∈ Movement.date <$> sales).
  { intros day. by rewrite sale_dates_filter, elem_of_list_to_set. }
  assert (Hne : (sale_totals d bid).*1 <> []).
  { intros Hnil. apply (f_equal length) in Hnil.
    rewrite length_fmap, sale_totals_length in Hnil. simpl in Hnil. lia. }
  destruct (column_max_spec _ Hne) as [Hin Hmax].
  exists model, (column_max (sale_totals d bid).*1).
  split; [apply training_sorted|]. split.
  { intros day y. rewrite training_elem, Hset, sale_amounts_filter. done. }
  split; [done|]. split; [by apply Hset, sale_totals_dates|].
  split; [|done].
  intros day Hday. by apply Hmax, sale_totals_dates, Hset.
Qed.

(** X19. The ticket of a movement just recorded: it prints that movement
    with the name of the business of the URL when the store has such a
    business, and fails with an [AttributeError] when it has none (the
    POST stored the movement all the same). *)
Theorem ticket_after_post (today : Z) (user : User.t) (d d' : db) (bid mid : Z)
  (data : MovementBody.t) :
  api_movements_post fromisoformat float_of_str d bid data = Ok (d', mid) ->
  exists m,
    last (movements d') = Some m
    /\ Movement.id m = mid
    /\ match list_find (fun b => Business.id b = bid) (businesses d) with
       | Some (_, b) =>
           serve fit predict fromisoformat float_of_str today user d' (Ticket mid)
           = (d', Printed m (Business.name b))
       | None =>
           serve fit predict fromisoformat float_of_str today user d' (Ticket mid)
           = (d', Uncaught AttributeError)
       end.
Proof.
  intros Hpost.
  apply post_inv in Hpost as (dt & tm & tipo & a & _ & -> & ->).
  set (m := stored_movement d bid dt tm tipo a data).
  exists m. split; [apply last_snoc|]. split; [done|].
  assert (Hfind : list_find (fun x => Movement.id x = Movement.id m)
                    (movements d ++ [m]) = Some (length (movements d), m)).
  { apply list_find_snoc; [|done]. intros y Hy Hid.
    apply (next_id_fresh (Movement.id <$> movements d)).
    apply list_elem_of_fmap. by exists y. }
  simpl. change (next_id (Movement.id <$> movements d)) with (Movement.id m).
  rewrite Hfind. simpl.
  by destruct (list_find _ (businesses d)) as [[i b]|].
Qed.

(** X20. Creating a business and listing one's businesses: the new business
    has the name of the form, the logged-in user as owner and an id that
    no business had; the owner's list is her list before followed by it,
    and the list of every other user is as before. Every business of a
    list is owned by the user it is answered to. *)
Theorem create_business_then_list (today : Z) (user : User.t) (d : db)
  (name : string) :
  exists b,
    serve fit predict fromisoformat float_of_str today user d
      (CreateBusiness (Some name))
    = (add_business d b, Redirect "dashboard")
    /\ Business.name b = name
    /\ Business.owner_id b = User.id user
    /\ (Business.id b ∉ Business.id <$> businesses d)
    /\ serve fit predict fromisoformat float_of_str today user
         (add_business d b) ApiBusinesses
       = (add_business d b,
          Businesses (filter (fun x => Business.owner_id x = User.id user)
                             (businesses d) ++ [b]))
    /\ (forall other,
          User.id other <> User.id user ->
          serve fit predict fromisoformat float_of_str today other
            (add_business d b) ApiBusinesses
          = (add_business d b,
             Businesses (filter (fun x => Business.owner_id x = User.id other)
                                (businesses d))))
    /\ (forall u d0 bs,
          serve fit predict fromisoformat float_of_str today u d0 ApiBusinesses
          = (d0, Businesses bs) ->
          Forall (fun x => Business.owner_id x = User.id u) bs).
Proof.
  eexists. split; [reflexivity|]. simpl.
  split; [done|]. split; [done|]. split; [apply next_id_fresh|].
  split; [|split].
  - rewrite filter_app, (filter_cons _ _ []), filter_nil.
    by rewrite decide_True.
  - intros other Hother. rewrite filter_app, (filter_cons _ _ []), filter_nil.
    rewrite decide_False by done. by rewrite app_nil_r.
  - intros u d0 bs [= <-]. apply Forall_forall. intros x Hx.
    by apply list_elem_of_filter in Hx as [? _].
Qed.


(** X22. Ids are handed out in sequence: of two movements recorded one
    after the other, for whatever businesses, the second gets the id of
    the first plus one, and the table afterwards is the table before
    followed by the two, in that order. *)
Theorem api_movements_post_twice (d d1 d2 : db) (bid1 bid2 i1 i2 : Z)
  (data1 data2 : MovementBody.t) :
  api_movements_post fromisoformat float_of_str d bid1 data1 = Ok (d1, i1) ->
  api_movements_post fromisoformat float_of_str d1 bid2 data2 = Ok (d2, i2) ->
  i2 = i1 + 1
  /\ exists m1 m2,
       movements d2 = movements d ++ [m1; m2]
       /\ Movement.id m1 = i1 /\ Movement.business_id m1 = bid1
       /\ Movement.id m2 = i2 /\ Movement.business_id m2 = bid2.
Proof.
  intros H1 H2.
  apply post_inv in H1 as (dt1 & tm1 & tipo1 & a1 & _ & -> & ->).
  apply post_inv in H2 as (dt2 & tm2 & tipo2 & a2 & _ & -> & ->).
  simpl. rewrite fmap_app. simpl. split; [apply next_id_snoc|].
  eexists _, _. rewrite <- app_assoc. simpl. split; [reflexivity|].
  simpl. rewrite fmap_app. done.
Qed.

(** X23. The dashboard shows a business of the logged-in user and never one
    of another user: the first stored business that she owns, and none
    exactly when she owns none. *)
Theorem dashboard_business (today : Z) (user : User.t) (d : db) :
  exists b,
    serve fit predict fromisoformat float_of_str today user d Dashboard
    = (d, Page (User.name user) b)
    /\ (b = None <->
        forall x, x ∈ businesses d -> Business.owner_id x <> User.id user)
    /\ (forall x, b = Some x ->
          exists i,
            list_find (fun y => Business.owner_id y = User.id user)
                      (businesses d) = Some (i, x)).
Proof.
  eexists. split; [reflexivity|].
  induction (businesses d) as [|y l IH]; simpl.
  - split; [split; [by intros _ x Hx%elem_of_nil|done]|done].
  - rewrite filter_cons. case_decide as Hy; simpl.
    + split.
      * split; [done|]. intros Hall. by destruct (Hall y (list_elem_of_here _ _)).
      * intros x [= <-]. by exists 0%nat.
    + destruct IH as [IH1 IH2]. split.
      * rewrite IH1. split.
        -- intros Hall x Hx. apply elem_of_cons in Hx as [->|Hx]; [done|].
           by apply Hall.
        -- intros Hall x Hx. by apply Hall, list_elem_of_further.
      * intros x Hx. destruct (IH2 x Hx) as [i Hi]. exists (S i).
        by rewrite Hi.
Qed.

End ServiceExtras.

(** * The further properties at concrete stores *)

Lemma db_ana_consistent : consistent db_ana.
Proof.
  unfold consistent, keyed. simpl.
  repeat split; try apply NoDup_nil_2; try apply NoDup_singleton;
    try apply Forall_nil_2; by apply Forall_singleton.
Qed.

(** The chart of business 1 on 2024-01-10, in a store that also holds
    the movements of business 2: 30 points. *)
Lemma plot_sales_window_witness :
  exists series,
    plot_sales_route db_two_shops (Some 1) (jan_1_2024 + 9) = Ok series
    /\ length series = 30%nat.
Proof.
  destruct (proj1 (plot_sales_window db_two_shops (Some 1) (jan_1_2024 + 9)
                     ltac:(vm_compute; discriminate)
                     ltac:(vm_compute; discriminate)))
    as (series & Hroute & Hlen & _).
  - by intros z [= <-].
  - by exists series.
Defined.

(** A sale of another business does not show in the chart of
    business 1. *)
Lemma plot_sales_frame_witness :
  plot_sales (add_movement db_ana (mov 2 2 jan_1_2024 "venta" 5 None))
    (Some 1) jan_1_2024
  = plot_sales db_ana (Some 1) jan_1_2024.
Proof. apply plot_sales_frame. left. discriminate. Defined.




(** Bob's first login: the session resolves to the new user. *)
Lemma auth_callback_current_user_witness :
  exists u, current_user (add_user db_ana bob) (Some 2) = Some u
            /\ u ∈ users (add_user db_ana bob)
            /\ User.id u = 2 /\ User.google_id u = "g-bob".
Proof.
  apply (auth_callback_current_user db_ana (add_user db_ana bob) "g-bob"
           (Some "bob@example.org") None 2).
  - exact db_ana_consistent.
  - reflexivity.
Defined.

(** Bob's session keeps the constraints of the schema. *)
Lemma run_keeps_constraints_witness :
  consistent (run Instances.fit Instances.predict Instances.fromisoformat
                Instances.float_of_str None db_ana session_bob).
Proof. apply run_keeps_constraints. exact db_ana_consistent. Defined.

(** A session that never logs in writes nothing. *)
Lemma anonymous_run_inert_witness :
  run Instances.fit Instances.predict Instances.fromisoformat
    Instances.float_of_str (Some 7) db_ana session_anonymous
  = db_ana.
Proof.
  apply anonymous_run_inert; [reflexivity|].
  repeat constructor.
Defined.

(** Bob reads the movements of Ana's business as Ana does. *)
Lemma serve_ignores_user_witness :
  serve Instances.fit Instances.predict Instances.fromisoformat
    Instances.float_of_str jan_1_2024 ana db_ana (ApiMovementsGet 1)
  = serve Instances.fit Instances.predict Instances.fromisoformat
      Instances.float_of_str jan_1_2024 bob db_ana (ApiMovementsGet 1).
Proof. apply serve_ignores_user. reflexivity. Defined.

(** A sale of March leaves the report of February as it was. *)
Lemma fiscal_report_frame_witness :
  fiscal_report
    (add_movement db_february (mov 8 1 (Calendar.ymd2ord 2024 3 5) "venta" 1 None))
    1 2024 2
  = fiscal_report db_february 1 2024 2.
Proof.
  apply (fiscal_report_frame _ _ 1 2024 2 2024 3 5);
    [reflexivity|reflexivity|]. right. right. discriminate.
Defined.

(** A sale of 25 on 2024-02-20 raises the sales of February from 150 to
    175 and the profit from 110 to 135. *)
Lemma fiscal_report_after_movement_witness :
  fiscal_report
    (add_movement db_february
       (mov 8 1 (Calendar.ymd2ord 2024 2 20) "venta" 25 None))
    1 2024 2
  = Ok {| year := 2024; month := 2;
          sales := 175; expenses := 40; profit := 135 |}.
Proof.
  rewrite (proj1 (fiscal_report_after_movement db_february
                    (mov 8 1 (Calendar.ymd2ord 2024 2 20) "venta" 25 None)
                    1 2024 2 20
                    {| year := 2024; month := 2;
                       sales := 150; expenses := 40; profit := 110 |}
                    eq_refl eq_refl ltac:(vm_compute; split; discriminate)
                    eq_refl) eq_refl).
  reflexivity.
Defined.

(** February 2024 of business 1: sales 150, expenses 40, profit 110. *)
Lemma fiscal_report_month_witness :
  fiscal_report db_february 1 2024 2
  = Ok {| year := 2024; month := 2;
          sales := 150; expenses := 40; profit := 110 |}.
Proof.
  destruct (fiscal_report_month db_february 1 2024 2
              eq_refl ltac:(lia) ltac:(lia) ltac:(lia)) as [H _].
  rewrite H. reflexivity.
Defined.

(** The chart of business 1 of the example: two slices. *)
Lemma plot_category_shape_witness :
  length [ ("sin-categoria", 20%float); ("rent", 80%float) ]
  = size (list_to_set
            (Movement.category <$>
             filter (fun m => Movement.business_id m = 1) (movements db_rent))
          : gset (option string)).
Proof.
  exact (proj1 (plot_category_shape db_rent 1
                  [ ("sin-categoria", 20%float); ("rent", 80%float) ]
                  eq_refl)).
Defined.

(** An expense does not change the forecast. *)
Lemma predict_sales_frame_witness :
  predict_sales Instances.fit Instances.predict
    (add_movement db_trend (mov 7 1 (jan_1_2024 + 6) "gasto" 99 None)) 1
  = predict_sales Instances.fit Instances.predict db_trend 1.
Proof. apply predict_sales_frame. right. discriminate. Defined.

(** After Bob's session business 1 still has its five sale dates, and
    no "Not enough data". *)
Lemma forecast_stays_available_witness :
  predict_sales Instances.fit Instances.predict
    (run Instances.fit Instances.predict Instances.fromisoformat
       Instances.float_of_str None db_trend session_bob) 1
  <> Ok (Failure 400 "Not enough data for prediction").
Proof.
  apply (proj2 (forecast_stays_available Instances.fit Instances.predict
                  Instances.fromisoformat Instances.float_of_str
                  session_bob None db_trend 1)).
  vm_compute. lia.
Defined.

(** The sales of business 1, recorded out of order and in parts among
    the movements of business 2, are trained on as 10 to 50 on five
    consecutive days, and the least-squares line continues them with 60
    to 120 on the seven days that follow. *)
Lemma predict_sales_training_witness :
  training db_two_shops 1
  = [ (738886, 10%float); (738887, 20%float); (738888, 30%float);
      (738889, 40%float); (738890, 50%float) ]
  /\ exists model last,
       Instances.fit (training db_two_shops 1) = Ok model
       /\ (forall day,
             day ∈ Movement.date <$>
                   filter (fun m => Movement.business_id m = 1
                                    /\ Movement.tipo m = venta)
                          (movements db_two_shops) ->
             day <= last)
       /\ [ (738891, 60%float); (738892, 70%float); (738893, 80%float);
            (738894, 90%float); (738895, 100%float); (738896, 110%float);
            (738897, 120%float) ]
          = [ (last + 1, Instances.predict model (last + 1));
              (last + 2, Instances.predict model (last + 2));
              (last + 3, Instances.predict model (last + 3));
              (last + 4, Instances.predict model (last + 4));
              (last + 5, Instances.predict model (last + 5));
              (last + 6, Instances.predict model (last + 6));
              (last + 7, Instances.predict model (last + 7)) ].
Proof.
  split; [vm_compute; reflexivity|].
  destruct (predict_sales_training Instances.fit Instances.predict
              db_two_shops 1 _ ltac:(vm_compute; reflexivity))
    as (model & last & _ & _ & Hfit & _ & Hmax & Hpreds).
  by exists model, last.
Defined.

(** The ticket of a sale posted for business 1 of Ana's store. *)
Lemma ticket_after_post_witness :
  exists d' mid,
    api_movements_post Instances.fromisoformat Instances.float_of_str
      db_ana 1 body_sale_100 = Ok (d', mid)
    /\ exists m,
         last (movements d') = Some m
         /\ Movement.id m = mid
         /\ serve Instances.fit Instances.predict Instances.fromisoformat
              Instances.float_of_str jan_1_2024 bob d' (Ticket mid)
            = (d', Printed m "Tienda").
Proof.
  eexists _, _. split; [reflexivity|].
  refine (ticket_after_post Instances.fit Instances.predict
            Instances.fromisoformat Instances.float_of_str
            jan_1_2024 bob db_ana _ 1 _ body_sale_100 _).
  reflexivity.
Defined.

(** Two sales recorded in a row on Ana's store get the ids 2 and 3. *)
Lemma api_movements_post_twice_witness :
  exists d1 d2,
    api_movements_post Instances.fromisoformat Instances.float_of_str
      db_ana 1 body_sale_100 = Ok (d1, 2)
    /\ api_movements_post Instances.fromisoformat Instances.float_of_str
         d1 9 body_unvalidated = Ok (d2, 3)
    /\ 3 = 2 + 1.
Proof.
  eexists _, _. split; [reflexivity|]. split; [reflexivity|].
  refine (proj1 (api_movements_post_twice
            Instances.fromisoformat Instances.float_of_str
            db_ana _ _ 1 9 2 3 body_sale_100 body_unvalidated _ _));
    reflexivity.
Defined.
